(** * GrindMap backend: the health and metrics service

    A shallow embedding of [backend/src/services/health.service.js].

    The module keeps three pieces of state of its own ([startTime],
    [requestCount], [errorCount]) and talks to three collaborators: the Node
    runtime ([process], [os], [Date]), the file system ([fs.promises.access])
    and the prom-client registry.  The embedding threads the module state
    through a small state-and-exception monad, takes what the runtime answers
    during one call as a record, and keeps the registry as the chronological
    log of the calls made to it.  Reads of the runtime complete normally, and
    so do the calls into prom-client, except that [observe] throws a TypeError
    when the value it is given is not a finite Number; the one failure the
    service itself provides for is the rejection of the access check. *)

From Stdlib Require Import ZArith List String Ascii Bool Lia.
From Stdlib Require Import PrimFloat FloatOps SpecFloat FloatAxioms Uint63 DecimalString.
Import ListNotations.

#[local] Open Scope string_scope.
#[local] Open Scope Z_scope.
#[local] Set Warnings "-inexact-float".

(** ** JavaScript values and the builtins the service uses *)

Module JS.

(** The values that reach the service: the primitive values of labels handed
    in by the middleware and of the [PORT || 5001] expression, and, as thrown
    values, Error objects, each by the name of its constructor. *)
Inductive Value : Type :=
| VUndefined
| VNull
| VBool (b : bool)
| VNumber (x : float)
| VString (s : string)
| VError (name : string).

(** ECMAScript ToBoolean. *)
Definition ToBoolean (v : Value) : bool :=
  match v with
  | VUndefined | VNull => false
  | VBool b => b
  | VNumber x => negb (PrimFloat.eqb x 0 || negb (PrimFloat.eqb x x))
  | VString s => match s with EmptyString => false | _ => true end
  | VError _ => true
  end.

(** [a || b]. *)
Definition or (a b : Value) : Value := if ToBoolean a then a else b.

(** Reading a key of [process.env]: a string, or [undefined]. *)
Definition of_env (o : option string) : Value :=
  match o with
  | Some s => VString s
  | None => VUndefined
  end.

(** [Number.isFinite] on a Number: neither NaN nor an infinity. *)
Definition Number_isFinite (x : float) : bool := PrimFloat.is_finite x.

(** The same test on the specification of a Number: zero and the finite
    non-zero values pass. *)
Definition SF_finite (x : spec_float) : bool :=
  match x with
  | S754_zero _ | S754_finite _ _ _ => true
  | _ => false
  end.

(** The largest integer [n] such that [n] and every smaller natural number
    are Numbers (binary64): [2^53]. *)
Definition MAX_EXACT : Z := 9007199254740992.

(** [n++] on a Number holding an integer [0 <= n <= 2^53]: the sum [n + 1] is
    exact while [n < 2^53]; [2^53 + 1] is not a binary64 value and rounds
    (ties to even) back to [2^53]. *)
Definition succ (n : Z) : Z := if n <? MAX_EXACT then n + 1 else n.

(** An integer of magnitude below [2^63] as a Number (rounded to nearest;
    exact up to [2^53]). *)
Definition of_Z (z : Z) : float :=
  if z <? 0 then PrimFloat.opp (PrimFloat.of_uint63 (Uint63.of_Z (- z)))
  else PrimFloat.of_uint63 (Uint63.of_Z z).

(** [Math.floor]. *)
Definition Math_floor (x : float) : float :=
  match Prim2SF x with
  | S754_finite s m e =>
      if 0 <=? e then x
      else
        let k := (if s then Zneg m else Zpos m) / 2 ^ (- e) in
        if k =? 0 then 0%float else of_Z k
  | _ => x
  end.

(** [Math.round]: the nearest integer, a tie going towards +infinity; the
    result keeps the sign of [x] when it is zero. *)
Definition Math_round (x : float) : float :=
  match Prim2SF x with
  | S754_finite s m e =>
      if 0 <=? e then x
      else
        let k := (2 * (if s then Zneg m else Zpos m) + 2 ^ (- e)) / 2 ^ (1 - e) in
        if k =? 0 then (if s then (-0)%float else 0%float) else of_Z k
  | _ => x
  end.

(** The decimal digits of a natural number. *)
Definition digits (n : Z) : string := NilZero.string_of_uint (N.to_uint (Z.to_N n)).

Fixpoint zeros (k : nat) : string :=
  match k with
  | O => ""
  | S k' => String "0" (zeros k')
  end.

(** Steps 10.b-10.c of Number.prototype.toFixed: pad the digits of [n] to at
    least [f + 1] characters and put the point before the last [f]. *)
Definition place_point (ds : string) (f : nat) : string :=
  let ds := if (String.length ds <=? f)%nat
            then zeros (f + 1 - String.length ds) ++ ds else ds in
  match f with
  | O => ds
  | _ => let k := String.length ds in
         substring 0 (k - f) ds ++ "." ++ substring (k - f) f ds
  end.

Section WithToString.

(** Number::toString, the runtime's conversion of a Number to a string
    (template literals, and [toFixed] outside its own range). *)
Variable NumberToString : float -> string.

(** [x.toFixed(f)] (ECMA-262, Number.prototype.toFixed), for
    [0 <= f <= 100]: with [x] finite and [|x| < 10^21], the digits of the
    integer [n] for which [n / 10^f - |x|] is closest to zero (the larger
    one when there are two), computed on the exact value [m * 2^e] of the
    binary64 number. *)
Definition toFixed (x : float) (f : nat) : string :=
  match Prim2SF x with
  | S754_zero _ => place_point (digits 0) f
  | S754_finite s m e =>
      let sign := if s then "-" else "" in
      let big := if 0 <=? e then 10 ^ 21 <=? Zpos m * 2 ^ e
                 else 10 ^ 21 * 2 ^ (- e) <=? Zpos m in
      if big then sign ++ NumberToString (PrimFloat.abs x)
      else
        let n := if 0 <=? e then Zpos m * 2 ^ e * 10 ^ Z.of_nat f
                 else (2 * Zpos m * 10 ^ Z.of_nat f + 2 ^ (- e)) / 2 ^ (1 - e) in
        sign ++ place_point (digits n) f
  | _ => NumberToString x
  end.

End WithToString.

(** A reference conversion, used to run the service on concrete inputs: NaN,
    the infinities and the integers of magnitude below [10^21] print as
    Number::toString prints them. Every other Number would need the shortest
    round-trip digits or the exponent notation of Number::toString; here it
    prints as the integer part of its magnitude only. *)
Definition integral_toString (x : float) : string :=
  match Prim2SF x with
  | S754_nan => "NaN"
  | S754_infinity s => if s then "-Infinity" else "Infinity"
  | S754_zero _ => "0"
  | S754_finite s m e =>
      (if s then "-" else "")
        ++ digits (if 0 <=? e then Zpos m * 2 ^ e else Zpos m / 2 ^ (- e))
  end.

End JS.

(** ** The Node runtime, as one call of the service sees it *)

Module Node.

(** [process.memoryUsage()]: byte counts (the fields the service reads). *)
Record MemoryUsage : Type :=
  { heapTotal : float; heapUsed : float; external : float }.

(** [process.cpuUsage()]: cumulative microseconds. *)
Record CpuUsage : Type := { user : float; system : float }.

(** One entry of [os.cpus()]. The service only counts the entries. *)
Record CpuInfo : Type := { model : string; speed : float }.

(** [fs.constants.W_OK]. *)
Definition W_OK : Z := 2.

(** What the runtime answers while one exported operation runs. Every
    operation asks each question at most once, so one record per call is
    enough. [fs_access path mode] is the outcome of the promise of
    [fs.promises.access(path, mode)]: [None] when it resolves, [Some e] when
    it rejects with [e]. *)
Record Runtime : Type :=
  { Date_now : float;
    new_Date_toISOString : string;
    process_memoryUsage : MemoryUsage;
    process_cpuUsage : CpuUsage;
    process_version : string;
    process_pid : Z;
    process_ppid : Z;
    process_title : string;
    process_argv : list string;
    process_env : string -> option string;
    os_cpus : list CpuInfo;
    os_platform : string;
    os_arch : string;
    os_loadavg : list float;
    fs_access : string -> Z -> option JS.Value }.

End Node.

(** ** The prom-client registry, as the log of the calls made to it *)

Inductive MetricKind : Type := Counter | Histogram | Gauge.

(** The configuration object a metric is constructed from. *)
Record Metric : Type :=
  { kind : MetricKind;
    name : string;
    help : string;
    labelNames : list string;
    buckets : list float }.

Definition Labels : Type := list (string * JS.Value).

Inductive RegistryCall : Type :=
| CollectDefaultMetrics
| New (m : Metric)
| Inc (m : Metric) (labels : Labels)
| Observe (m : Metric) (labels : Labels) (value : float)
| GaugeSet (m : Metric) (labels : Labels) (value : float)
| RegisterMetrics.

Definition httpRequestsTotal : Metric :=
  {| kind := Counter;
     name := "http_requests_total";
     help := "Total number of HTTP requests";
     labelNames := ["method"; "route"; "status_code"];
     buckets := [] |}.

Definition httpRequestDuration : Metric :=
  {| kind := Histogram;
     name := "http_request_duration_seconds";
     help := "Duration of HTTP requests in seconds";
     labelNames := ["method"; "route"];
     buckets := [0.1; 0.5; 1; 2; 5; 10]%float |}.

Definition activeConnections : Metric :=
  {| kind := Gauge;
     name := "active_connections";
     help := "Number of active connections";
     labelNames := [];
     buckets := [] |}.

Definition memoryUsage : Metric :=
  {| kind := Gauge;
     name := "memory_usage_bytes";
     help := "Memory usage in bytes";
     labelNames := ["type"];
     buckets := [] |}.

Definition cpuUsage : Metric :=
  {| kind := Gauge;
     name := "cpu_usage_percent";
     help := "CPU usage percentage";
     labelNames := [];
     buckets := [] |}.

(** ** Module state and the monad of the exported operations *)

(** The module-level bindings, and the registry they share with prom-client. *)
Record Service : Type :=
  { startTime : float;
    requestCount : Z;
    errorCount : Z;
    registry : list RegistryCall }.

(** How a call ends: with a value (for an async function, the value its
    promise resolves to) or with a thrown value (a rejection). *)
Inductive Completion (A : Type) : Type :=
| Normal (a : A)
| Throw (e : JS.Value).

Arguments Normal {A} a.
Arguments Throw {A} e.

Definition M (A : Type) : Type := Service -> Completion A * Service.

Definition ret {A : Type} (a : A) : M A := fun s => (Normal a, s).

Definition bind {A B : Type} (c : M A) (k : A -> M B) : M B :=
  fun s =>
    match c s with
    | (Normal a, s') => k a s'
    | (Throw e, s') => (Throw e, s')
    end.

Definition throw {A : Type} (e : JS.Value) : M A := fun s => (Throw e, s).

(** [try { body } catch { handler }]. *)
Definition try_catch {A : Type} (body : M A) (handler : M A) : M A :=
  fun s =>
    match body s with
    | (Normal a, s') => (Normal a, s')
    | (Throw _, s') => handler s'
    end.

Definition get : M Service := fun s => (Normal s, s).

Definition modify (f : Service -> Service) : M unit := fun s => (Normal tt, f s).

Declare Scope service_scope.
Delimit Scope service_scope with service.
Notation "x <- c ;; k" := (bind c (fun x => k))
  (at level 61, c at next level, right associativity) : service_scope.
Notation "c ;; k" := (bind c (fun _ => k))
  (at level 61, right associativity) : service_scope.
#[local] Open Scope service_scope.

Definition set_requestCount (n : Z) (s : Service) : Service :=
  {| startTime := startTime s; requestCount := n;
     errorCount := errorCount s; registry := registry s |}.

Definition set_errorCount (n : Z) (s : Service) : Service :=
  {| startTime := startTime s; requestCount := requestCount s;
     errorCount := n; registry := registry s |}.

(** A call into prom-client is appended to the log. *)
Definition record_call (c : RegistryCall) (s : Service) : Service :=
  {| startTime := startTime s; requestCount := requestCount s;
     errorCount := errorCount s; registry := (registry s ++ [c])%list |}.

Definition inc (m : Metric) (labels : Labels) : M unit :=
  modify (record_call (Inc m labels)).

(** [Histogram.observe]: the call is logged; prom-client then rejects a value
    that is not a finite Number with a TypeError, before it touches any
    bucket. *)
Definition observe (m : Metric) (labels : Labels) (value : float) : M unit :=
  fun s =>
    (if JS.Number_isFinite value then Normal tt else Throw (JS.VError "TypeError"),
     record_call (Observe m labels value) s).

Definition set (m : Metric) (labels : Labels) (value : float) : M unit :=
  modify (record_call (GaugeSet m labels value)).

(** [await fs.promises.access(path, mode)]. *)
Definition access (rt : Node.Runtime) (path : string) (mode : Z) : M unit :=
  match Node.fs_access rt path mode with
  | None => ret tt
  | Some e => throw e
  end.

(** ** What the queries return *)

Module Memory.
Record t : Type := { used : string; total : string; external : string }.
End Memory.

Module Cpu.
Record t : Type := { user : float; system : float }.
End Cpu.

Module System.
Record t : Type :=
  { platform : string; arch : string; nodeVersion : string; loadAvg : list float }.
End System.

Module Requests.
Record t : Type := { total : Z; errors : Z; errorRate : string }.
End Requests.

Record Health : Type :=
  { status : string;
    timestamp : string;
    uptime : string;
    memory : Memory.t;
    cpu : Cpu.t;
    system : System.t;
    requests : Requests.t }.

(** One entry of the list of [checkDependencies]; the filesystem entry has no
    [usage] key, the memory entry no [error] key, a healthy one neither. *)
Module Dependency.
Record t : Type :=
  { name : string; status : string; error : option string; usage : option string }.
End Dependency.

Module Process.
Record t : Type := { pid : Z; ppid : Z; title : string; argv : list string }.
End Process.

Module Environment.
Record t : Type := { nodeEnv : JS.Value; port : JS.Value }.
End Environment.

(** [{ ...health, process, environment }]: the seven keys of [health] are
    copied, and the two keys added after the spread overwrite none of them. *)
Record Detailed : Type :=
  { health : Health; process : Process.t; environment : Environment.t }.

(** ** The exported operations *)

Section HealthService.

(** Number::toString of the runtime. *)
Variable NumberToString : float -> string.

(** The text [register.metrics()] resolves to: the exposition, at the time
    of the call, of the registry built by the calls logged so far. *)
Variable register_metrics : Node.Runtime -> list RegistryCall -> string.

(** Loading the module: [startTime], the two counters, default metrics and
    the five custom metrics. *)
Definition init (rt : Node.Runtime) : Service :=
  {| startTime := Node.Date_now rt;
     requestCount := 0;
     errorCount := 0;
     registry := [CollectDefaultMetrics; New httpRequestsTotal;
                  New httpRequestDuration; New activeConnections;
                  New memoryUsage; New cpuUsage] |}.

Definition incrementRequestCount (method route statusCode : JS.Value) : M unit :=
  s <- get ;;
  modify (set_requestCount (JS.succ (requestCount s))) ;;
  inc httpRequestsTotal
      [("method", method); ("route", route); ("status_code", statusCode)].

(** The arrow function returns the value of [errorCount++], the count before
    the increment. *)
Definition incrementErrorCount : M Z :=
  s <- get ;;
  modify (set_errorCount (JS.succ (errorCount s))) ;;
  ret (errorCount s).

Definition recordRequestDuration (method route : JS.Value) (duration : float)
  : M unit :=
  observe httpRequestDuration [("method", method); ("route", route)]
          (duration / 1000)%float.

Definition updateActiveConnections (count : float) : M unit :=
  set activeConnections [] count.

Definition updateMemoryUsage (rt : Node.Runtime) : M unit :=
  let memUsage := Node.process_memoryUsage rt in
  set memoryUsage [("type", JS.VString "heap_used")] (Node.heapUsed memUsage) ;;
  set memoryUsage [("type", JS.VString "heap_total")] (Node.heapTotal memUsage) ;;
  set memoryUsage [("type", JS.VString "external")] (Node.external memUsage).

Definition updateCpuUsage (rt : Node.Runtime) : M unit :=
  let cpu := Node.process_cpuUsage rt in
  let total := (Node.user cpu + Node.system cpu)%float in
  let usage :=
    ((total / 1000000) / JS.of_Z (Z.of_nat (List.length (Node.os_cpus rt))))%float in
  set cpuUsage [] usage.

Definition getSystemHealth (rt : Node.Runtime) : M Health :=
  s <- get ;;
  let uptime := (Node.Date_now rt - startTime s)%float in
  let memUsage := Node.process_memoryUsage rt in
  let cpuUsage := Node.process_cpuUsage rt in
  ret {| status := "healthy";
         timestamp := Node.new_Date_toISOString rt;
         uptime := NumberToString (JS.Math_floor (uptime / 1000)%float) ++ "s";
         memory :=
           {| Memory.used :=
                NumberToString
                  (JS.Math_round (Node.heapUsed memUsage / 1024 / 1024)%float) ++ "MB";
              Memory.total :=
                NumberToString
                  (JS.Math_round (Node.heapTotal memUsage / 1024 / 1024)%float) ++ "MB";
              Memory.external :=
                NumberToString
                  (JS.Math_round (Node.external memUsage / 1024 / 1024)%float) ++ "MB" |};
         cpu := {| Cpu.user := Node.user cpuUsage; Cpu.system := Node.system cpuUsage |};
         system :=
           {| System.platform := Node.os_platform rt;
              System.arch := Node.os_arch rt;
              System.nodeVersion := Node.process_version rt;
              System.loadAvg := Node.os_loadavg rt |};
         requests :=
           {| Requests.total := requestCount s;
              Requests.errors := errorCount s;
              Requests.errorRate :=
                if 0 <? requestCount s
                then JS.toFixed NumberToString
                       ((JS.of_Z (errorCount s) / JS.of_Z (requestCount s)) * 100)%float
                       2 ++ "%"
                else "0%" |} |}.

(** [checks] is a local array: each [push] is written as the list with the
    entry appended. In the [try] block the push is the last statement, so
    the [catch] block starts from the list as it was before the block. *)
Definition checkDependencies (rt : Node.Runtime) : M (list Dependency.t) :=
  let checks : list Dependency.t := [] in
  checks <-
    try_catch
      (access rt "./logs" Node.W_OK ;;
       ret (checks ++ [ {| Dependency.name := "filesystem";
                           Dependency.status := "healthy";
                           Dependency.error := None;
                           Dependency.usage := None |} ])%list)
      (ret (checks ++ [ {| Dependency.name := "filesystem";
                           Dependency.status := "unhealthy";
                           Dependency.error := Some "Cannot write to logs directory";
                           Dependency.usage := None |} ])%list) ;;
  let memUsage := Node.process_memoryUsage rt in
  let memoryHealthy :=
    (Node.heapUsed memUsage <? Node.heapTotal memUsage * 0.9)%float in
  let checks :=
    (checks ++ [ {| Dependency.name := "memory";
                   Dependency.status := if memoryHealthy then "healthy" else "warning";
                   Dependency.error := None;
                   Dependency.usage :=
                     Some (NumberToString
                             (JS.Math_round
                                ((Node.heapUsed memUsage / Node.heapTotal memUsage)
                                 * 100)%float) ++ "%")%string |} ])%list in
  ret checks.

Definition getDetailedMetrics (rt : Node.Runtime) : M Detailed :=
  health <- getSystemHealth rt ;;
  ret {| health := health;
         process :=
           {| Process.pid := Node.process_pid rt;
              Process.ppid := Node.process_ppid rt;
              Process.title := Node.process_title rt;
              Process.argv := Node.process_argv rt |};
         environment :=
           {| Environment.nodeEnv := JS.of_env (Node.process_env rt "NODE_ENV");
              Environment.port :=
                JS.or (JS.of_env (Node.process_env rt "PORT"))
                      (JS.VNumber 5001) |} |}.

(** [register.metrics()]: the call is logged, and the text is that of the
    registry as the calls before it left it. *)
Definition metrics (rt : Node.Runtime) : M string :=
  s <- get ;;
  modify (record_call RegisterMetrics) ;;
  ret (register_metrics rt (registry s)).

Definition getPrometheusMetrics (rt : Node.Runtime) : M string :=
  updateMemoryUsage rt ;;
  updateCpuUsage rt ;;
  metrics rt.

(** *** Sequences of calls *)

(** A call of one of the ten exported operations. *)
Inductive Call : Type :=
| IncrementRequestCount (method route statusCode : JS.Value)
| IncrementErrorCount
| RecordRequestDuration (method route : JS.Value) (duration : float)
| UpdateActiveConnections (count : float)
| UpdateMemoryUsage
| UpdateCpuUsage
| GetSystemHealth
| CheckDependencies
| GetDetailedMetrics
| GetPrometheusMetrics.

(** The module state a call leaves behind, whether it returned or threw.
    The synchronous part of every operation runs to completion before any
    other call starts; of the two
    async operations, [checkDependencies] touches no module state and
    [getPrometheusMetrics] has made all its calls before its promise is
    returned, so a call is one step. *)
Definition step (rt : Node.Runtime) (c : Call) (s : Service) : Service :=
  match c with
  | IncrementRequestCount method route statusCode =>
      snd (incrementRequestCount method route statusCode s)
  | IncrementErrorCount => snd (incrementErrorCount s)
  | RecordRequestDuration method route duration =>
      snd (recordRequestDuration method route duration s)
  | UpdateActiveConnections count => snd (updateActiveConnections count s)
  | UpdateMemoryUsage => snd (updateMemoryUsage rt s)
  | UpdateCpuUsage => snd (updateCpuUsage rt s)
  | GetSystemHealth => snd (getSystemHealth rt s)
  | CheckDependencies => snd (checkDependencies rt s)
  | GetDetailedMetrics => snd (getDetailedMetrics rt s)
  | GetPrometheusMetrics => snd (getPrometheusMetrics rt s)
  end.

(** A history: the calls in order, each with what the runtime answered. *)
Definition History : Type := list (Node.Runtime * Call).

Definition run (h : History) (s : Service) : Service :=
  fold_left (fun s rc => step (fst rc) (snd rc) s) h s.

Definition is_incrementRequestCount (c : Call) : bool :=
  match c with IncrementRequestCount _ _ _ => true | _ => false end.

Definition is_incrementErrorCount (c : Call) : bool :=
  match c with IncrementErrorCount => true | _ => false end.

(** How many calls of a history satisfy [p]. *)
Definition calls (p : Call -> bool) (h : History) : Z :=
  Z.of_nat (List.length (filter (fun rc => p (snd rc)) h)).


(** The filesystem entry, by the outcome of the access check. *)
Definition filesystem_entry (outcome : option JS.Value) : Dependency.t :=
  match outcome with
  | None =>
      {| Dependency.name := "filesystem"; Dependency.status := "healthy";
         Dependency.error := None; Dependency.usage := None |}
  | Some _ =>
      {| Dependency.name := "filesystem"; Dependency.status := "unhealthy";
         Dependency.error := Some "Cannot write to logs directory";
         Dependency.usage := None |}
  end.

(** *** Sample inputs *)

(** A runtime answer: the [PORT] variable, whether [./logs] can be written,
    and the heap figures are given; the rest is fixed. *)
Definition sample_runtime (PORT : option string) (writable : bool)
           (heapUsed heapTotal : float) : Node.Runtime :=
  {| Node.Date_now := 1700000012500%float;
     Node.new_Date_toISOString := "2023-11-14T22:13:32.500Z";
     Node.process_memoryUsage :=
       {| Node.heapTotal := heapTotal; Node.heapUsed := heapUsed;
          Node.external := 2097152%float |};
     Node.process_cpuUsage := {| Node.user := 3000000%float; Node.system := 1000000%float |};
     Node.process_version := "v20.11.0";
     Node.process_pid := 4242;
     Node.process_ppid := 1;
     Node.process_title := "node";
     Node.process_argv := ["/usr/bin/node"; "/app/src/server.js"];
     Node.process_env :=
       fun key => if String.eqb key "PORT" then PORT else None;
     Node.os_cpus :=
       [ {| Node.model := "cpu0"; Node.speed := 2400%float |};
         {| Node.model := "cpu1"; Node.speed := 2400%float |} ];
     Node.os_platform := "linux";
     Node.os_arch := "x64";
     Node.os_loadavg := [0.5; 0.25; 0.125]%float;
     Node.fs_access :=
       fun _ _ => if writable then None
                  else Some (JS.VString "EACCES: permission denied, access './logs'") |}.

(** The runtime at module load, twelve and a half seconds earlier. *)
Definition boot_runtime : Node.Runtime :=
  {| Node.Date_now := 1700000000000%float;
     Node.new_Date_toISOString := "2023-11-14T22:13:20.000Z";
     Node.process_memoryUsage :=
       Node.process_memoryUsage (sample_runtime None true 0 0);
     Node.process_cpuUsage := Node.process_cpuUsage (sample_runtime None true 0 0);
     Node.process_version := "v20.11.0";
     Node.process_pid := 4242;
     Node.process_ppid := 1;
     Node.process_title := "node";
     Node.process_argv := ["/usr/bin/node"; "/app/src/server.js"];
     Node.process_env := fun _ => None;
     Node.os_cpus := Node.os_cpus (sample_runtime None true 0 0);
     Node.os_platform := "linux";
     Node.os_arch := "x64";
     Node.os_loadavg := [0.5; 0.25; 0.125]%float;
     Node.fs_access := fun _ _ => None |}.

Definition GET : JS.Value := JS.VString "GET".
Definition api_users : JS.Value := JS.VString "/api/users".

(** Three requests, one of them an error, between other operations. *)
Definition sample_history : History :=
  let rt := sample_runtime (Some "8080") true 52428800 104857600 in
  [ (rt, IncrementRequestCount GET api_users (JS.VNumber 200));
    (rt, RecordRequestDuration GET api_users 1500);
    (rt, GetSystemHealth);
    (rt, IncrementRequestCount GET api_users (JS.VNumber 500));
    (rt, IncrementErrorCount);
    (rt, CheckDependencies);
    (rt, IncrementRequestCount GET api_users (JS.VNumber 200));
    (rt, GetPrometheusMetrics) ].

(** The module state with the two counters at given values. *)
Definition counted (errors total : Z) : Service :=
  set_errorCount errors (set_requestCount total (init boot_runtime)).

(** [incrementRequestCount] called [2^53 + 1] times in a row. *)
Definition flood : History :=
  repeat (sample_runtime None true 52428800 104857600,
          IncrementRequestCount GET api_users (JS.VNumber 200))
         (Z.to_nat (JS.MAX_EXACT + 1)).

(** A stand-in for the text of the registry, used to run the service on
    concrete inputs: the names of the metrics registered so far, one per
    line. *)
Definition registered_names (rt : Node.Runtime) (log : list RegistryCall) : string :=
  String.concat (String "010" "")
    (flat_map (fun c => match c with New m => [name m] | _ => [] end) log).

(** *** Reading the registry log back *)

(** Metrics are told apart by their registered name. *)
Definition is_metric (m m' : Metric) : bool := String.eqb (name m) (name m').

(** The label sets of the increments of [m] in a log, oldest first. *)
Definition increments (m : Metric) (log : list RegistryCall) : list Labels :=
  flat_map (fun c => match c with
                     | Inc m' labels => if is_metric m m' then [labels] else []
                     | _ => []
                     end) log.

(** The observations of [m] in a log, oldest first. *)
Definition observations (m : Metric) (log : list RegistryCall)
  : list (Labels * float) :=
  flat_map (fun c => match c with
                     | Observe m' labels v => if is_metric m m' then [(labels, v)] else []
                     | _ => []
                     end) log.

(** The settings of the gauge [m] in a log, oldest first. *)
Definition settings (m : Metric) (log : list RegistryCall)
  : list (Labels * float) :=
  flat_map (fun c => match c with
                     | GaugeSet m' labels v => if is_metric m m' then [(labels, v)] else []
                     | _ => []
                     end) log.

(** The registrations in a log: default metrics and constructed metrics. *)
Definition registrations (log : list RegistryCall) : list RegistryCall :=
  flat_map (fun c => match c with
                     | CollectDefaultMetrics | New _ => [c]
                     | _ => []
                     end) log.

(** *** Reading a history *)

(** The label sets of the [incrementRequestCount] calls, in call order. *)
Definition counted_requests (h : History) : list Labels :=
  flat_map (fun rc => match snd rc with
                      | IncrementRequestCount method route statusCode =>
                          [[("method", method); ("route", route);
                            ("status_code", statusCode)]]
                      | _ => []
                      end) h.

(** The [recordRequestDuration] calls, in call order: labels and seconds. *)
Definition recorded_durations (h : History) : list (Labels * float) :=
  flat_map (fun rc => match snd rc with
                      | RecordRequestDuration method route duration =>
                          [([("method", method); ("route", route)],
                            (duration / 1000)%float)]
                      | _ => []
                      end) h.

(** The counts handed to [updateActiveConnections], in call order. *)
Definition connection_updates (h : History) : list (Labels * float) :=
  flat_map (fun rc => match snd rc with
                      | UpdateActiveConnections count => [([], count)]
                      | _ => []
                      end) h.

(** The three figures of one [process.memoryUsage()] answer, as labelled. *)
Definition memory_readings (rt : Node.Runtime) : list (Labels * float) :=
  let memUsage := Node.process_memoryUsage rt in
  [ ([("type", JS.VString "heap_used")], Node.heapUsed memUsage);
    ([("type", JS.VString "heap_total")], Node.heapTotal memUsage);
    ([("type", JS.VString "external")], Node.external memUsage) ].

(** The calls that refresh the memory and CPU gauges. *)
Definition refreshes_memory (c : Call) : bool :=
  match c with UpdateMemoryUsage | GetPrometheusMetrics => true | _ => false end.

Definition refreshes_cpu (c : Call) : bool :=
  match c with UpdateCpuUsage | GetPrometheusMetrics => true | _ => false end.

(** The three read-only operations. *)
Definition is_query (c : Call) : bool :=
  match c with
  | GetSystemHealth | CheckDependencies | GetDetailedMetrics => true
  | _ => false
  end.

(** What one call appends to the registry log: what it adds to the log of a
    freshly loaded module. *)
Definition emitted (rt : Node.Runtime) (c : Call) : list RegistryCall :=
  skipn (List.length (registry (init rt))) (registry (step rt c (init rt))).

(** *** The counters as Numbers *)

(** The Number a binding holds after [let x = 0] and [n] executions of
    [x++], in binary64 arithmetic. *)
Definition incremented (n : nat) : float :=
  Nat.iter n (fun x => (x + 1)%float) 0%float.

(** Two requests, neither of them an error; and two requests, both errors. *)
Definition clean_history : History :=
  let rt := sample_runtime None true 52428800 104857600 in
  [ (rt, IncrementRequestCount GET api_users (JS.VNumber 200));
    (rt, GetSystemHealth);
    (rt, IncrementRequestCount GET api_users (JS.VNumber 204)) ].

Definition failed_history : History :=
  let rt := sample_runtime None true 52428800 104857600 in
  [ (rt, IncrementRequestCount GET api_users (JS.VNumber 500));
    (rt, IncrementErrorCount);
    (rt, IncrementRequestCount GET api_users (JS.VNumber 503));
    (rt, IncrementErrorCount) ].

(** ** Properties *)

(** *** One step *)

Lemma MAX_EXACT_nonneg : 0 <= JS.MAX_EXACT.
Proof. unfold JS.MAX_EXACT. lia. Qed.

Lemma succ_cases (n : Z) : JS.succ n = n \/ JS.succ n = n + 1.
Proof. unfold JS.succ. destruct (n <? JS.MAX_EXACT); auto. Qed.

Lemma succ_min (n : Z) : n <= JS.MAX_EXACT -> JS.succ n = Z.min (n + 1) JS.MAX_EXACT.
Proof. unfold JS.succ. intros Hn. destruct (Z.ltb_spec n JS.MAX_EXACT); lia. Qed.

(** Only [incrementRequestCount] writes [requestCount]. *)
Lemma requestCount_step (rt : Node.Runtime) (c : Call) (s : Service) :
  requestCount (step rt c s)
  = if is_incrementRequestCount c then JS.succ (requestCount s) else requestCount s.
Proof.
  destruct c; try reflexivity.
  cbn. unfold checkDependencies, try_catch, access, bind.
  destruct (Node.fs_access rt "./logs" Node.W_OK); reflexivity.
Qed.

(** Only [incrementErrorCount] writes [errorCount]. *)
Lemma errorCount_step (rt : Node.Runtime) (c : Call) (s : Service) :
  errorCount (step rt c s)
  = if is_incrementErrorCount c then JS.succ (errorCount s) else errorCount s.
Proof.
  destruct c; try reflexivity.
  cbn. unfold checkDependencies, try_catch, access, bind.
  destruct (Node.fs_access rt "./logs" Node.W_OK); reflexivity.
Qed.

(** No operation removes a call from the registry log. *)
Lemma registry_step (rt : Node.Runtime) (c : Call) (s : Service) :
  exists new, registry (step rt c s) = (registry s ++ new)%list.
Proof.
  destruct c; cbn;
    try (eexists; rewrite <- ?app_assoc; reflexivity);
    try (exists []; rewrite app_nil_r; reflexivity).
  unfold checkDependencies, try_catch, access, bind.
  destruct (Node.fs_access rt "./logs" Node.W_OK);
    exists []; rewrite app_nil_r; reflexivity.
Qed.

(** *** Histories *)

Lemma run_cons (rt : Node.Runtime) (c : Call) (h : History) (s : Service) :
  run ((rt, c) :: h) s = run h (step rt c s).
Proof. reflexivity. Qed.

Lemma run_app (h1 h2 : History) (s : Service) :
  run (h1 ++ h2)%list s = run h2 (run h1 s).
Proof. unfold run. apply fold_left_app. Qed.

Lemma calls_nil (p : Call -> bool) : calls p [] = 0.
Proof. reflexivity. Qed.

Lemma calls_cons (p : Call -> bool) (rt : Node.Runtime) (c : Call) (h : History) :
  calls p ((rt, c) :: h) = (if p c then 1 else 0) + calls p h.
Proof.
  unfold calls. cbn [filter snd]. destruct (p c); cbn [List.length]; lia.
Qed.

Lemma calls_nonneg (p : Call -> bool) (h : History) : 0 <= calls p h.
Proof. unfold calls. lia. Qed.

Lemma calls_repeat (p : Call -> bool) (rt : Node.Runtime) (c : Call) (n : nat) :
  calls p (repeat (rt, c) n) = if p c then Z.of_nat n else 0.
Proof.
  induction n as [|n IH].
  - destruct (p c); reflexivity.
  - cbn [repeat]. rewrite calls_cons, IH. destruct (p c); lia.
Qed.

(** The counter follows the number of calls until it reaches [2^53]. *)
Lemma requestCount_run (h : History) :
  forall s : Service,
    0 <= requestCount s <= JS.MAX_EXACT ->
    requestCount (run h s)
    = Z.min (requestCount s + calls is_incrementRequestCount h) JS.MAX_EXACT.
Proof.
  induction h as [|[rt c] h IH]; intros s Hs.
  - rewrite calls_nil. cbn. lia.
  - rewrite run_cons, calls_cons.
    pose proof (calls_nonneg is_incrementRequestCount h) as Hh.
    assert (Hstep : 0 <= requestCount (step rt c s) <= JS.MAX_EXACT).
    { rewrite requestCount_step. destruct (is_incrementRequestCount c); [|lia].
      rewrite succ_min by lia. lia. }
    rewrite (IH _ Hstep), requestCount_step.
    destruct (is_incrementRequestCount c); [|f_equal; lia].
    rewrite succ_min by lia. lia.
Qed.

Lemma errorCount_run (h : History) :
  forall s : Service,
    0 <= errorCount s <= JS.MAX_EXACT ->
    errorCount (run h s)
    = Z.min (errorCount s + calls is_incrementErrorCount h) JS.MAX_EXACT.
Proof.
  induction h as [|[rt c] h IH]; intros s Hs.
  - rewrite calls_nil. cbn. lia.
  - rewrite run_cons, calls_cons.
    pose proof (calls_nonneg is_incrementErrorCount h) as Hh.
    assert (Hstep : 0 <= errorCount (step rt c s) <= JS.MAX_EXACT).
    { rewrite errorCount_step. destruct (is_incrementErrorCount c); [|lia].
      rewrite succ_min by lia. lia. }
    rewrite (IH _ Hstep), errorCount_step.
    destruct (is_incrementErrorCount c); [|f_equal; lia].
    rewrite succ_min by lia. lia.
Qed.

Lemma requestCount_init (rt0 : Node.Runtime) (h : History) :
  requestCount (run h (init rt0)) = Z.min (calls is_incrementRequestCount h) JS.MAX_EXACT.
Proof.
  rewrite requestCount_run; [reflexivity|].
  pose proof MAX_EXACT_nonneg. cbn. lia.
Qed.

Lemma errorCount_init (rt0 : Node.Runtime) (h : History) :
  errorCount (run h (init rt0)) = Z.min (calls is_incrementErrorCount h) JS.MAX_EXACT.
Proof.
  rewrite errorCount_run; [reflexivity|].
  pose proof MAX_EXACT_nonneg. cbn. lia.
Qed.

Lemma requestCount_monotone (h : History) (s : Service) :
  requestCount s <= requestCount (run h s).
Proof.
  revert s. induction h as [|[rt c] h IH]; intros s.
  - cbn. lia.
  - rewrite run_cons. etransitivity; [|apply IH].
    rewrite requestCount_step. destruct (is_incrementRequestCount c); [|lia].
    destruct (succ_cases (requestCount s)); lia.
Qed.

Lemma errorCount_monotone (h : History) (s : Service) :
  errorCount s <= errorCount (run h s).
Proof.
  revert s. induction h as [|[rt c] h IH]; intros s.
  - cbn. lia.
  - rewrite run_cons. etransitivity; [|apply IH].
    rewrite errorCount_step. destruct (is_incrementErrorCount c); [|lia].
    destruct (succ_cases (errorCount s)); lia.
Qed.

Lemma registry_run (h : History) (s : Service) :
  exists new, registry (run h s) = (registry s ++ new)%list.
Proof.
  revert s. induction h as [|[rt c] h IH]; intros s.
  - exists []. cbn. now rewrite app_nil_r.
  - rewrite run_cons. destruct (IH (step rt c s)) as [new2 H2].
    destruct (registry_step rt c s) as [new1 H1].
    exists (new1 ++ new2)%list. now rewrite H2, H1, app_assoc.
Qed.

(** *** Builtins *)

(** The integer whose digits [toFixed] prints for a value [m * 2^e] with
    [e < 0] is the one nearest to [m * 2^e * 10^f], the upper one on a tie:
    [-1/2 < n - m * 2^e * 10^f <= 1/2], here multiplied by [2 * 2^(-e)]. *)
Lemma toFixed_digits_nearest (m : positive) (e : Z) (f : nat) :
  e < 0 ->
  let n := (2 * Zpos m * 10 ^ Z.of_nat f + 2 ^ (- e)) / 2 ^ (1 - e) in
  - 2 ^ (- e) < 2 * (n * 2 ^ (- e) - Zpos m * 10 ^ Z.of_nat f) <= 2 ^ (- e).
Proof.
  intros He n.
  assert (Hpow : 2 ^ (1 - e) = 2 * 2 ^ (- e)).
  { replace (1 - e) with (Z.succ (- e)) by lia. apply Z.pow_succ_r. lia. }
  assert (Ht : 0 < 2 ^ (- e)) by (apply Z.pow_pos_nonneg; lia).
  subst n. rewrite Hpow.
  set (t := 2 ^ (- e)) in *. set (a := 2 * Zpos m * 10 ^ Z.of_nat f + t).
  pose proof (Z.div_mod a (2 * t) ltac:(lia)) as Hdm.
  pose proof (Z.mod_pos_bound a (2 * t) ltac:(lia)) as Hr.
  assert (Ha : 2 * Zpos m * 10 ^ Z.of_nat f = a - t) by (subst a; lia).
  nia.
Qed.

(** *** The health snapshot *)

(** [getSystemHealth] completes normally, leaves the module state alone and
    reads the two counters as they are. *)
Lemma getSystemHealth_reads (rt : Node.Runtime) (s : Service) :
  exists r : Health,
    getSystemHealth rt s = (Normal r, s)
    /\ status r = "healthy"
    /\ Requests.total (requests r) = requestCount s
    /\ Requests.errors (requests r) = errorCount s
    /\ Requests.errorRate (requests r)
       = if 0 <? requestCount s
         then JS.toFixed NumberToString
                ((JS.of_Z (errorCount s) / JS.of_Z (requestCount s)) * 100)%float 2
              ++ "%"
         else "0%".
Proof. eexists. split; [reflexivity|]. cbn. auto. Qed.

(** C1 (amended). After any history in which [incrementRequestCount] was
    called at most [2^53] times, whatever else was called in between,
    [requests.total] of [getSystemHealth()] is the number of those calls. *)
Theorem requests_total_counts_calls (rt0 rt : Node.Runtime) (h : History) :
  calls is_incrementRequestCount h <= JS.MAX_EXACT ->
  exists r : Health,
    getSystemHealth rt (run h (init rt0)) = (Normal r, run h (init rt0))
    /\ Requests.total (requests r) = calls is_incrementRequestCount h.
Proof.
  intros Hn.
  destruct (getSystemHealth_reads rt (run h (init rt0))) as (r & Hr & _ & Ht & _).
  exists r. split; [exact Hr|].
  rewrite Ht, requestCount_init. lia.
Qed.

(** C2. After any interleaving of calls, [requests.errorRate] is ["0%"] when
    [requests.total] is zero, which is exactly when no request was counted,
    and otherwise [(errors / total * 100).toFixed(2)] followed by ["%"],
    with [errors] and [total] the two counters of the same snapshot and the
    division and product those of binary64 Numbers. *)
Theorem errorRate_formats_ratio (rt0 rt : Node.Runtime) (h : History) :
  exists r : Health,
    getSystemHealth rt (run h (init rt0)) = (Normal r, run h (init rt0))
    /\ 0 <= Requests.total (requests r)
    /\ (Requests.total (requests r) = 0 <-> calls is_incrementRequestCount h = 0)
    /\ Requests.errors (requests r)
       = Z.min (calls is_incrementErrorCount h) JS.MAX_EXACT
    /\ Requests.errorRate (requests r)
       = if Requests.total (requests r) =? 0 then "0%"
         else JS.toFixed NumberToString
                ((JS.of_Z (Requests.errors (requests r))
                  / JS.of_Z (Requests.total (requests r))) * 100)%float 2
              ++ "%".
Proof.
  destruct (getSystemHealth_reads rt (run h (init rt0))) as (r & Hr & _ & Ht & He & Hrate).
  pose proof (calls_nonneg is_incrementRequestCount h) as Hc.
  pose proof MAX_EXACT_nonneg as Hm.
  assert (Hmax : 0 < JS.MAX_EXACT) by (unfold JS.MAX_EXACT; lia).
  exists r. split; [exact Hr|].
  rewrite Hrate, Ht, He, requestCount_init, errorCount_init.
  repeat split; try lia.
  destruct (Z.ltb_spec 0 (Z.min (calls is_incrementRequestCount h) JS.MAX_EXACT));
    destruct (Z.eqb_spec (Z.min (calls is_incrementRequestCount h) JS.MAX_EXACT) 0);
    try lia; reflexivity.
Qed.

(** C6. Whatever the module state and whatever the runtime answers, the
    [status] of [getSystemHealth()] is ["healthy"]. *)
Theorem status_always_healthy (rt : Node.Runtime) (s : Service) :
  exists r : Health,
    getSystemHealth rt s = (Normal r, s) /\ status r = "healthy".
Proof.
  destruct (getSystemHealth_reads rt s) as (r & Hr & Hs & _).
  exists r. auto.
Qed.

(** *** Dependency checks *)

Lemma checkDependencies_returns (rt : Node.Runtime) (s : Service) :
  let memUsage := Node.process_memoryUsage rt in
  checkDependencies rt s
  = (Normal
       [ filesystem_entry (Node.fs_access rt "./logs" Node.W_OK);
         {| Dependency.name := "memory";
            Dependency.status :=
              if (Node.heapUsed memUsage <? Node.heapTotal memUsage * 0.9)%float
              then "healthy" else "warning";
            Dependency.error := None;
            Dependency.usage :=
              Some (NumberToString
                      (JS.Math_round
                         ((Node.heapUsed memUsage / Node.heapTotal memUsage)
                          * 100)%float) ++ "%") |} ],
     s).
Proof.
  unfold checkDependencies, try_catch, access, bind.
  destruct (Node.fs_access rt "./logs" Node.W_OK); reflexivity.
Qed.

(** C4. [checkDependencies()] never ends in a throw: whether the access
    check of ["./logs"] resolves or rejects, and whatever it rejects with,
    it returns two entries, the filesystem entry first (healthy when the
    check resolved, unhealthy with the fixed message when it rejected) and
    the memory entry second. *)
Theorem checkDependencies_never_throws (rt : Node.Runtime) (s : Service) :
  exists memory_entry : Dependency.t,
    checkDependencies rt s
    = (Normal [filesystem_entry (Node.fs_access rt "./logs" Node.W_OK); memory_entry], s)
    /\ Dependency.name memory_entry = "memory"
    /\ filesystem_entry None
       = {| Dependency.name := "filesystem"; Dependency.status := "healthy";
            Dependency.error := None; Dependency.usage := None |}
    /\ forall e : JS.Value,
         filesystem_entry (Some e)
         = {| Dependency.name := "filesystem"; Dependency.status := "unhealthy";
              Dependency.error := Some "Cannot write to logs directory";
              Dependency.usage := None |}.
Proof.
  eexists. split; [apply checkDependencies_returns|].
  repeat split.
Qed.

(** C5. The memory entry of [checkDependencies()] is healthy exactly when
    [heapUsed < heapTotal * 0.9] holds of the two Numbers read from the
    runtime, a warning otherwise, and its [usage] is the rounded percentage
    [heapUsed / heapTotal * 100] followed by ["%"]. *)
Theorem memory_check_threshold (rt : Node.Runtime) (s : Service) :
  let memUsage := Node.process_memoryUsage rt in
  let below := (Node.heapUsed memUsage <? Node.heapTotal memUsage * 0.9)%float in
  exists filesystem memory_entry : Dependency.t,
    checkDependencies rt s = (Normal [filesystem; memory_entry], s)
    /\ Dependency.name memory_entry = "memory"
    /\ (Dependency.status memory_entry = "healthy" <-> below = true)
    /\ (Dependency.status memory_entry = "warning" <-> below = false)
    /\ Dependency.usage memory_entry
       = Some (NumberToString
                 (JS.Math_round
                    ((Node.heapUsed memUsage / Node.heapTotal memUsage) * 100)%float)
               ++ "%").
Proof.
  intros memUsage below.
  do 2 eexists. split; [apply checkDependencies_returns|].
  cbn [Dependency.name Dependency.status Dependency.usage].
  fold memUsage. fold below.
  destruct below; repeat split; intros; try reflexivity; discriminate.
Qed.

(** *** Detailed metrics *)

(** C7 (amended). [environment.port] of [getDetailedMetrics()] is the value
    of [PORT] when that variable is set to a non-empty string, and the
    number 5001 when it is unset or set to the empty string. *)
Theorem port_defaults_when_unset_or_empty (rt : Node.Runtime) (s : Service) :
  exists d : Detailed,
    getDetailedMetrics rt s = (Normal d, s)
    /\ Environment.port (environment d)
       = match Node.process_env rt "PORT" with
         | Some (String c rest) => JS.VString (String c rest)
         | Some EmptyString | None => JS.VNumber 5001
         end.
Proof.
  eexists. split; [reflexivity|].
  cbn [environment Environment.port].
  destruct (Node.process_env rt "PORT") as [[|c rest]|]; reflexivity.
Qed.

(** *** The metrics endpoint *)

(** C8. [getPrometheusMetrics()] first logs the three settings of
    [memory_usage_bytes] and the setting of [cpu_usage_percent], as
    [updateMemoryUsage] followed by [updateCpuUsage] make them from what
    the runtime reports, and only then asks the registry for its text,
    which it returns as it is; the registry rendered is the whole log since
    module load, default metrics included. *)
Theorem getPrometheusMetrics_refreshes_then_renders
        (rt0 rt : Node.Runtime) (h : History) :
  let s := run h (init rt0) in
  let refreshed := snd (updateCpuUsage rt (snd (updateMemoryUsage rt s))) in
  let memUsage := Node.process_memoryUsage rt in
  let cpu := Node.process_cpuUsage rt in
  getPrometheusMetrics rt s
  = (Normal (register_metrics rt (registry refreshed)),
     record_call RegisterMetrics refreshed)
  /\ registry refreshed
     = (registry s
        ++ [ GaugeSet memoryUsage [("type", JS.VString "heap_used")]
                      (Node.heapUsed memUsage);
             GaugeSet memoryUsage [("type", JS.VString "heap_total")]
                      (Node.heapTotal memUsage);
             GaugeSet memoryUsage [("type", JS.VString "external")]
                      (Node.external memUsage);
             GaugeSet cpuUsage []
                      (((Node.user cpu + Node.system cpu) / 1000000)
                       / JS.of_Z (Z.of_nat (List.length (Node.os_cpus rt))))%float ])%list
  /\ In CollectDefaultMetrics (registry refreshed)
  /\ name memoryUsage = "memory_usage_bytes"
  /\ name cpuUsage = "cpu_usage_percent".
Proof.
  intros s refreshed memUsage cpu.
  assert (Hlog : registry refreshed
                 = (registry s
                    ++ [ GaugeSet memoryUsage [("type", JS.VString "heap_used")]
                                  (Node.heapUsed memUsage);
                         GaugeSet memoryUsage [("type", JS.VString "heap_total")]
                                  (Node.heapTotal memUsage);
                         GaugeSet memoryUsage [("type", JS.VString "external")]
                                  (Node.external memUsage);
                         GaugeSet cpuUsage []
                                  (((Node.user cpu + Node.system cpu) / 1000000)
                                   / JS.of_Z (Z.of_nat (List.length (Node.os_cpus rt))))%float ])%list).
  { subst refreshed. cbn. rewrite <- !app_assoc. reflexivity. }
  split; [reflexivity|]. split; [exact Hlog|]. split; [|split; reflexivity].
  rewrite Hlog. subst s.
  destruct (registry_run h (init rt0)) as [new Hnew]. rewrite Hnew.
  apply in_or_app. left. apply in_or_app. left. cbn. auto.
Qed.

(** *** The two counters *)

(** Both counters stay Numbers that hold an integer exactly. *)
Lemma counters_in_range (rt0 : Node.Runtime) (h : History) :
  0 <= requestCount (run h (init rt0)) <= JS.MAX_EXACT
  /\ 0 <= errorCount (run h (init rt0)) <= JS.MAX_EXACT.
Proof.
  rewrite requestCount_init, errorCount_init.
  pose proof (calls_nonneg is_incrementRequestCount h).
  pose proof (calls_nonneg is_incrementErrorCount h).
  pose proof MAX_EXACT_nonneg. lia.
Qed.

(** C9. In every state the module can reach, each of the ten exported
    operations leaves each of the two counters as it was or one higher, so
    neither counter ever goes down or back to zero over a history. *)
Theorem counters_never_decrease (rt0 rt : Node.Runtime) (h : History) (c : Call) :
  let s := run h (init rt0) in
  (requestCount (step rt c s) = requestCount s
   \/ requestCount (step rt c s) = requestCount s + 1)
  /\ (errorCount (step rt c s) = errorCount s
      \/ errorCount (step rt c s) = errorCount s + 1)
  /\ forall h' : History,
       requestCount s <= requestCount (run (h ++ h')%list (init rt0))
       /\ errorCount s <= errorCount (run (h ++ h')%list (init rt0)).
Proof.
  intros s. split; [|split].
  - rewrite requestCount_step.
    destruct (is_incrementRequestCount c); [apply succ_cases | now left].
  - rewrite errorCount_step.
    destruct (is_incrementErrorCount c); [apply succ_cases | now left].
  - intros h'. rewrite run_app. fold s.
    split; [apply requestCount_monotone | apply errorCount_monotone].
Qed.

(** C10. [getSystemHealth], [getDetailedMetrics] and [checkDependencies]
    leave the module state, and so both counters, as they found it. *)
Theorem queries_leave_counters_unchanged (rt : Node.Runtime) (s : Service) :
  (snd (getSystemHealth rt s) = s
   /\ snd (getDetailedMetrics rt s) = s
   /\ snd (checkDependencies rt s) = s)
  /\ (requestCount (step rt GetSystemHealth s) = requestCount s
      /\ errorCount (step rt GetSystemHealth s) = errorCount s)
  /\ (requestCount (step rt GetDetailedMetrics s) = requestCount s
      /\ errorCount (step rt GetDetailedMetrics s) = errorCount s)
  /\ (requestCount (step rt CheckDependencies s) = requestCount s
      /\ errorCount (step rt CheckDependencies s) = errorCount s).
Proof.
  assert (Hq : snd (getSystemHealth rt s) = s
               /\ snd (getDetailedMetrics rt s) = s
               /\ snd (checkDependencies rt s) = s).
  { repeat split; try reflexivity.
    pose proof (checkDependencies_returns rt s) as Hc. cbv zeta in Hc.
    rewrite Hc. reflexivity. }
  split; [exact Hq|].
  destruct Hq as (H1 & H2 & H3).
  cbn [step]. rewrite H1, H2, H3. repeat split.
Qed.

(** *** What reaches the registry *)

Lemma registry_step_emitted (rt : Node.Runtime) (c : Call) (s : Service) :
  registry (step rt c s) = (registry s ++ emitted rt c)%list.
Proof.
  destruct c; cbn; rewrite <- ?app_assoc, ?app_nil_r; try reflexivity.
  unfold emitted, step, checkDependencies, try_catch, access, bind.
  destruct (Node.fs_access rt "./logs" Node.W_OK); cbn; now rewrite app_nil_r.
Qed.

Lemma registry_run_emitted (h : History) :
  forall s : Service,
    registry (run h s)
    = (registry s ++ flat_map (fun rc => emitted (fst rc) (snd rc)) h)%list.
Proof.
  induction h as [|[rt c] h IH]; intros s.
  - cbn. now rewrite app_nil_r.
  - rewrite run_cons, IH, registry_step_emitted. cbn [flat_map fst snd].
    now rewrite app_assoc.
Qed.

Lemma flat_map_twice {A B C : Type} (f : B -> list C) (g : A -> list B) (l : list A) :
  flat_map f (flat_map g l) = flat_map (fun a => flat_map f (g a)) l.
Proof.
  induction l as [|a l IH]; [reflexivity|].
  cbn [flat_map]. now rewrite flat_map_app, IH.
Qed.

Lemma flat_map_nil {A B : Type} (f : A -> list B) (l : list A) :
  (forall a, f a = []) -> flat_map f l = [].
Proof.
  intros Hf. induction l as [|a l IH]; [reflexivity|].
  cbn [flat_map]. now rewrite Hf, IH.
Qed.

(** A projection of the log of a reachable state, call by call. *)
Lemma project_log {B : Type} (f : RegistryCall -> list B)
      (rt0 : Node.Runtime) (h : History) :
  flat_map f (registry (run h (init rt0)))
  = (flat_map f (registry (init rt0))
     ++ flat_map (fun rc => flat_map f (emitted (fst rc) (snd rc))) h)%list.
Proof. now rewrite registry_run_emitted, flat_map_app, flat_map_twice. Qed.

Lemma emitted_query (rt : Node.Runtime) (c : Call) :
  is_query c = true -> emitted rt c = [].
Proof.
  destruct c; try discriminate; intros _; try reflexivity.
  unfold emitted, step, checkDependencies, try_catch, access, bind.
  destruct (Node.fs_access rt "./logs" Node.W_OK); reflexivity.
Qed.

(** Projecting what a call emits: the query cases all emit nothing. *)
Ltac project_emitted c rt :=
  destruct c; try reflexivity;
  rewrite (emitted_query rt CheckDependencies eq_refl); reflexivity.

Lemma length_counted_requests (h : History) :
  Z.of_nat (List.length (counted_requests h)) = calls is_incrementRequestCount h.
Proof.
  induction h as [|[rt c] h IH]; [reflexivity|].
  rewrite calls_cons, <- IH.
  destruct c; cbn [is_incrementRequestCount];
    try (change (counted_requests (_ :: h)) with (counted_requests h); lia).
  change (counted_requests ((rt, IncrementRequestCount method route statusCode) :: h))
    with ([("method", method); ("route", route); ("status_code", statusCode)]
            :: counted_requests h).
  cbn [List.length]. lia.
Qed.

(** X1. [http_requests_total] is incremented once per call of
    [incrementRequestCount], in call order, with the three arguments as its
    labels, and by nothing else; so up to [2^53] the in-memory counter is the
    number of increments the registry received. *)
Theorem request_increments_follow_calls (rt0 : Node.Runtime) (h : History) :
  increments httpRequestsTotal (registry (run h (init rt0))) = counted_requests h
  /\ requestCount (run h (init rt0))
     = Z.min (Z.of_nat (List.length
                          (increments httpRequestsTotal (registry (run h (init rt0))))))
             JS.MAX_EXACT.
Proof.
  assert (Hlog : increments httpRequestsTotal (registry (run h (init rt0)))
                 = counted_requests h).
  { unfold increments. rewrite project_log. cbn [init registry flat_map app].
    unfold counted_requests. apply flat_map_ext. intros [rt c]. cbn [fst snd].
    project_emitted c rt. }
  split; [exact Hlog|].
  now rewrite Hlog, length_counted_requests, requestCount_init.
Qed.

(** X2. The observations of [http_request_duration_seconds] are, in call
    order, those of the [recordRequestDuration] calls: the labels given and
    the duration divided by 1000. No other operation observes a duration. *)
Theorem duration_observations_follow_calls (rt0 : Node.Runtime) (h : History) :
  observations httpRequestDuration (registry (run h (init rt0)))
  = recorded_durations h.
Proof.
  unfold observations. rewrite project_log. cbn [init registry flat_map app].
  unfold recorded_durations. apply flat_map_ext. intros [rt c]. cbn [fst snd].
  project_emitted c rt.
Qed.

(** X3. The gauge [active_connections] is set only by
    [updateActiveConnections], to the count given, unlabelled: its settings
    in the log are the counts of those calls in call order. *)
Theorem connection_settings_follow_calls (rt0 : Node.Runtime) (h : History) :
  settings activeConnections (registry (run h (init rt0))) = connection_updates h.
Proof.
  unfold settings. rewrite project_log. cbn [init registry flat_map app].
  unfold connection_updates. apply flat_map_ext. intros [rt c]. cbn [fst snd].
  project_emitted c rt.
Qed.

(** X4. [memory_usage_bytes] is set only by [updateMemoryUsage] and
    [getPrometheusMetrics], each time with the three figures of one runtime
    answer in the order heap_used, heap_total, external; [cpu_usage_percent]
    only by [updateCpuUsage] and [getPrometheusMetrics], to the CPU seconds
    per logical CPU. In particular no query refreshes a gauge. *)
Theorem gauge_refreshes_follow_calls (rt0 : Node.Runtime) (h : History) :
  settings memoryUsage (registry (run h (init rt0)))
  = flat_map (fun rc => if refreshes_memory (snd rc)
                        then memory_readings (fst rc) else []) h
  /\ settings cpuUsage (registry (run h (init rt0)))
     = flat_map
         (fun rc =>
            if refreshes_cpu (snd rc)
            then [([],
                   (((Node.user (Node.process_cpuUsage (fst rc))
                      + Node.system (Node.process_cpuUsage (fst rc))) / 1000000)
                    / JS.of_Z (Z.of_nat (List.length (Node.os_cpus (fst rc)))))%float)]
            else []) h.
Proof.
  split; unfold settings; rewrite project_log; cbn [init registry flat_map app];
    apply flat_map_ext; intros [rt c]; cbn [fst snd]; project_emitted c rt.
Qed.

(** X5. Registration happens once: in every reachable state the
    registrations in the log are the six made when the module was loaded
    (default metrics, then the five metrics), and they are its first six
    entries; no operation registers a metric again. *)
Theorem metrics_registered_once (rt0 : Node.Runtime) (h : History) :
  registrations (registry (run h (init rt0)))
  = [CollectDefaultMetrics; New httpRequestsTotal; New httpRequestDuration;
     New activeConnections; New memoryUsage; New cpuUsage]
  /\ firstn 6 (registry (run h (init rt0)))
     = [CollectDefaultMetrics; New httpRequestsTotal; New httpRequestDuration;
        New activeConnections; New memoryUsage; New cpuUsage].
Proof.
  split.
  - unfold registrations. rewrite project_log.
    rewrite (flat_map_nil _ h); [reflexivity|].
    intros [rt c]. cbn [fst snd]. project_emitted c rt.
  - rewrite registry_run_emitted. reflexivity.
Qed.

(** *** Calls that leave no trace *)

Lemma step_query (rt : Node.Runtime) (c : Call) (s : Service) :
  is_query c = true -> step rt c s = s.
Proof.
  destruct c; try discriminate; intros _; try reflexivity.
  cbn [step]. pose proof (checkDependencies_returns rt s) as Hc.
  cbv zeta in Hc. now rewrite Hc.
Qed.

(** X6. The three queries are transparent: removing every call of
    [getSystemHealth], [checkDependencies] and [getDetailedMetrics] from a
    history leaves the final module state, registry log included, the same. *)
Theorem queries_are_transparent (h : History) (s : Service) :
  run h s = run (filter (fun rc => negb (is_query (snd rc))) h) s.
Proof.
  revert s. induction h as [|[rt c] h IH]; intros s; [reflexivity|].
  cbn [filter snd]. destruct (is_query c) eqn:Hq; cbn [negb].
  - rewrite run_cons, (step_query rt c s Hq). apply IH.
  - rewrite !run_cons. apply IH.
Qed.

Lemma startTime_step (rt : Node.Runtime) (c : Call) (s : Service) :
  startTime (step rt c s) = startTime s.
Proof.
  destruct c; try reflexivity.
  rewrite (step_query rt CheckDependencies s eq_refl). reflexivity.
Qed.

(** Two states that differ at most in [errorCount] still do after a call. *)
Lemma step_apart_from_errors (rt : Node.Runtime) (c : Call) (s1 s2 : Service) :
  startTime s1 = startTime s2 /\ requestCount s1 = requestCount s2
  /\ registry s1 = registry s2 ->
  startTime (step rt c s1) = startTime (step rt c s2)
  /\ requestCount (step rt c s1) = requestCount (step rt c s2)
  /\ registry (step rt c s1) = registry (step rt c s2).
Proof.
  intros (Ht & Hr & Hl).
  rewrite !startTime_step, !requestCount_step, !registry_step_emitted, Ht, Hr, Hl.
  auto.
Qed.

Lemma run_apart_from_errors (h : History) :
  forall s1 s2 : Service,
    startTime s1 = startTime s2 /\ requestCount s1 = requestCount s2
    /\ registry s1 = registry s2 ->
    let h' := filter (fun rc => negb (is_incrementErrorCount (snd rc))) h in
    startTime (run h s1) = startTime (run h' s2)
    /\ requestCount (run h s1) = requestCount (run h' s2)
    /\ registry (run h s1) = registry (run h' s2).
Proof.
  induction h as [|[rt c] h IH]; intros s1 s2 H12; [exact H12|].
  cbn [filter snd]. destruct (is_incrementErrorCount c) eqn:Hc; cbn [negb].
  - rewrite run_cons. apply IH. destruct c; try discriminate. exact H12.
  - rewrite !run_cons. apply IH. now apply step_apart_from_errors.
Qed.

(** X7. Errors are counted in memory only: removing every call of
    [incrementErrorCount] from a history changes neither the registry log nor
    the request counter nor the start time. *)
Theorem error_calls_leave_no_trace (h : History) (s : Service) :
  let h' := filter (fun rc => negb (is_incrementErrorCount (snd rc))) h in
  registry (run h s) = registry (run h' s)
  /\ requestCount (run h s) = requestCount (run h' s)
  /\ startTime (run h s) = startTime (run h' s).
Proof.
  intros h'.
  destruct (run_apart_from_errors h s s (conj eq_refl (conj eq_refl eq_refl)))
    as (Ht & Hr & Hl).
  auto.
Qed.

(** *** Uptime and the error count *)

Lemma startTime_run (h : History) (s : Service) : startTime (run h s) = startTime s.
Proof.
  revert s. induction h as [|[rt c] h IH]; intros s; [reflexivity|].
  now rewrite run_cons, IH, startTime_step.
Qed.

(** X8. No operation moves the start time: after any history the uptime
    reported is the whole seconds between the clock reading of the call and
    the clock reading taken when the module was loaded. *)
Theorem uptime_counts_from_module_load (rt0 rt : Node.Runtime) (h : History) :
  startTime (run h (init rt0)) = Node.Date_now rt0
  /\ exists r : Health,
       getSystemHealth rt (run h (init rt0)) = (Normal r, run h (init rt0))
       /\ uptime r
          = NumberToString
              (JS.Math_floor ((Node.Date_now rt - Node.Date_now rt0) / 1000)%float)
            ++ "s".
Proof.
  split; [now rewrite startTime_run|].
  eexists. split; [reflexivity|].
  cbn [uptime]. now rewrite startTime_run.
Qed.

(** X9. After any history in which [incrementErrorCount] was called at most
    [2^53] times, [requests.errors] of [getSystemHealth()] is the number of
    those calls, whether or not any request was counted. *)
Theorem requests_errors_counts_calls (rt0 rt : Node.Runtime) (h : History) :
  calls is_incrementErrorCount h <= JS.MAX_EXACT ->
  exists r : Health,
    getSystemHealth rt (run h (init rt0)) = (Normal r, run h (init rt0))
    /\ Requests.errors (requests r) = calls is_incrementErrorCount h.
Proof.
  intros Hn.
  destruct (getSystemHealth_reads rt (run h (init rt0))) as (r & Hr & _ & _ & He & _).
  exists r. split; [exact Hr|].
  rewrite He, errorCount_init. lia.
Qed.

(** X10. [incrementErrorCount()] returns the count before the increment: in
    the state a history leads to, it returns the number of earlier
    [incrementErrorCount] calls (at most [2^53]) and leaves the counter at
    the number of calls including this one (at most [2^53]). *)
Theorem incrementErrorCount_returns_previous_count (rt0 : Node.Runtime) (h : History) :
  fst (incrementErrorCount (run h (init rt0)))
  = Normal (Z.min (calls is_incrementErrorCount h) JS.MAX_EXACT)
  /\ errorCount (snd (incrementErrorCount (run h (init rt0))))
     = Z.min (calls is_incrementErrorCount h + 1) JS.MAX_EXACT.
Proof.
  pose proof (calls_nonneg is_incrementErrorCount h) as Hc.
  pose proof MAX_EXACT_nonneg as Hm.
  split.
  - cbn. now rewrite errorCount_init.
  - cbn. rewrite errorCount_init, succ_min by lia. lia.
Qed.

(** X11. [environment.port] of [getDetailedMetrics()] is always a truthy
    value: a non-empty string or the number 5001, never [undefined] and never
    the empty string, whatever [PORT] is. *)
Theorem port_is_always_truthy (rt : Node.Runtime) (s : Service) :
  exists d : Detailed,
    getDetailedMetrics rt s = (Normal d, s)
    /\ JS.ToBoolean (Environment.port (environment d)) = true
    /\ Environment.port (environment d) <> JS.VUndefined
    /\ Environment.port (environment d) <> JS.VString "".
Proof.
  eexists. split; [reflexivity|].
  cbn [environment Environment.port].
  destruct (Node.process_env rt "PORT") as [[|c rest]|];
    cbn; repeat split; discriminate.
Qed.

(** *** Binary64 arithmetic on counters *)

Lemma iter_pos_nat {A : Type} (f : A -> A) (p : positive) :
  forall x : A, iter_pos f p x = Nat.iter (Pos.to_nat p) f x.
Proof.
  induction p as [p IH|p IH|]; intros x; cbn [iter_pos].
  - rewrite !IH, Pos2Nat.inj_xI, <- Nat.iter_add, <- Nat.iter_succ_r.
    f_equal. lia.
  - rewrite !IH, Pos2Nat.inj_xO, <- Nat.iter_add. f_equal. lia.
  - reflexivity.
Qed.

Lemma Zpos_iter_xO (k : nat) (p : positive) :
  Zpos (Nat.iter k xO p) = Zpos p * 2 ^ Z.of_nat k.
Proof.
  induction k as [|k IH].
  - cbn. lia.
  - rewrite Nat2Z.inj_succ, Z.pow_succ_r by lia.
    change (Nat.iter (S k) xO p) with (xO (Nat.iter k xO p)).
    rewrite Pos2Z.inj_xO, IH. ring.
Qed.

Lemma Zpos_Pos_iter_xO (p k : positive) :
  Zpos (Pos.iter xO p k) = Zpos p * 2 ^ Zpos k.
Proof.
  rewrite Pos2Nat.inj_iter.
  change (Zpos (Nat.iter (Pos.to_nat k) xO p) = Zpos p * 2 ^ Zpos k).
  rewrite Zpos_iter_xO. f_equal. f_equal. lia.
Qed.

Lemma digits_iter_xO (k : nat) (p : positive) :
  Zpos (digits2_pos (Nat.iter k xO p)) = Zpos (digits2_pos p) + Z.of_nat k.
Proof.
  induction k as [|k IH].
  - cbn. lia.
  - change (Nat.iter (S k) xO p) with (xO (Nat.iter k xO p)).
    cbn [digits2_pos]. rewrite Pos2Z.inj_succ, Nat2Z.inj_succ, IH. lia.
Qed.

Lemma digits2_pos_size (p : positive) : digits2_pos p = Pos.size p.
Proof. induction p; cbn; congruence. Qed.

(** An integer below [2^53] has at most 53 binary digits. *)
Lemma digits_below_2_53 (p : positive) :
  Zpos p < 2 ^ 53 -> Zpos (digits2_pos p) <= 53.
Proof.
  intros Hp. rewrite digits2_pos_size.
  destruct (Z.le_gt_cases (Zpos (Pos.size p)) 53) as [H|H]; [exact H|exfalso].
  pose proof (Pos.size_le p) as Hle.
  apply Pos2Z.pos_le_pos in Hle. rewrite Pos2Z.inj_pow in Hle.
  assert (Hpow : 2 ^ 54 <= 2 ^ Zpos (Pos.size p)) by (apply Z.pow_le_mono_r; lia).
  change (Zpos p~0) with (2 * Zpos p) in Hle. lia.
Qed.

(** Shifting out [k] zero bits loses nothing. *)
Lemma shr_trailing_zeros (k : nat) (q : positive) :
  Nat.iter k shr_1 (Build_shr_record (Zpos (Nat.iter k xO q)) false false)
  = Build_shr_record (Zpos q) false false.
Proof.
  induction k as [|k IH]; [reflexivity|].
  rewrite Nat.iter_succ_r.
  change (Nat.iter (S k) xO q) with (xO (Nat.iter k xO q)).
  cbn [shr_1 orb]. exact IH.
Qed.

(** A mantissa of exactly 53 bits with an exponent in range is kept as it is. *)
Lemma binary_round_aux_canonical (s : bool) (m : positive) (e : Z) :
  Zpos (digits2_pos m) = 53 -> -1074 <= e <= 971 ->
  binary_round_aux prec emax s (Zpos m) e loc_Exact = S754_finite s m e.
Proof.
  intros Hd He.
  assert (Hshift : fexp prec emax (Zdigits2 (Zpos m) + e) - e = 0).
  { cbn [Zdigits2]. rewrite Hd. unfold fexp, SpecFloat.emin, prec, emax. lia. }
  unfold binary_round_aux, shr_fexp. rewrite Hshift.
  cbn [shr shr_record_of_loc shr_m loc_of_shr_record round_nearest_even].
  rewrite Hshift. cbn [shr shr_record_of_loc shr_m].
  destruct (Z.leb_spec e (emax - prec)) as [_|Hbad]; [reflexivity|].
  unfold emax, prec in Hbad. lia.
Qed.

(** A mantissa that is too long by [j] bits, all of them zero, is shortened
    exactly. *)
Lemma binary_round_aux_shifted (s : bool) (p : positive) (k j : nat) (e : Z) :
  (j <= k)%nat ->
  Zpos (digits2_pos p) + Z.of_nat k - Z.of_nat j = 53 ->
  -1074 <= e + Z.of_nat j <= 971 ->
  binary_round_aux prec emax s (Zpos (Nat.iter k xO p)) e loc_Exact
  = S754_finite s (Nat.iter (k - j) xO p) (e + Z.of_nat j).
Proof.
  intros Hjk Hd He.
  assert (Hdq : Zpos (digits2_pos (Nat.iter (k - j) xO p)) = 53).
  { rewrite digits_iter_xO. lia. }
  rewrite <- (binary_round_aux_canonical s _ _ Hdq He).
  assert (Hq : fexp prec emax (Zdigits2 (Zpos (Nat.iter (k - j) xO p))
                               + (e + Z.of_nat j)) - (e + Z.of_nat j) = 0).
  { cbn [Zdigits2]. rewrite Hdq. unfold fexp, SpecFloat.emin, prec, emax. lia. }
  assert (Hp : fexp prec emax (Zdigits2 (Zpos (Nat.iter k xO p)) + e) - e
               = Z.of_nat j).
  { cbn [Zdigits2]. rewrite digits_iter_xO.
    unfold fexp, SpecFloat.emin, prec, emax. lia. }
  unfold binary_round_aux, shr_fexp. rewrite Hp, Hq.
  cbn [shr_record_of_loc].
  destruct j as [|j].
  - cbn [Z.of_nat shr]. rewrite Nat.sub_0_r, Z.add_0_r. reflexivity.
  - replace (Z.of_nat (S j)) with (Zpos (Pos.of_succ_nat j)) by lia.
    cbn [shr]. rewrite iter_pos_nat, SuccNat2Pos.id_succ.
    replace (Nat.iter k xO p)
      with (Nat.iter (S j) xO (Nat.iter (k - S j) xO p))
      by (rewrite <- Nat.iter_add; f_equal; lia).
    rewrite shr_trailing_zeros. reflexivity.
Qed.

(** Binary64 of a positive integer below [2^53]: its digits, moved to the top
    of the 53-bit mantissa. *)
Lemma binary_normalize_small (p : positive) :
  Zpos p < 2 ^ 53 ->
  binary_normalize prec emax (Zpos p) 0 false
  = S754_finite false (Nat.iter (Z.to_nat (53 - Zpos (digits2_pos p))) xO p)
                (Zpos (digits2_pos p) - 53).
Proof.
  intros Hp. pose proof (digits_below_2_53 p Hp) as Hd.
  unfold binary_normalize, binary_round, shl_align.
  assert (Hf : fexp prec emax (Zpos (digits2_pos p) + 0) = Zpos (digits2_pos p) - 53).
  { unfold fexp, SpecFloat.emin, prec, emax. lia. }
  rewrite Hf.
  destruct (Zpos (digits2_pos p) - 53 - 0) as [|q|q] eqn:Hq; try lia.
  - replace (53 - Zpos (digits2_pos p)) with 0 by lia.
    replace (Zpos (digits2_pos p) - 53) with 0 by lia.
    change (Nat.iter (Z.to_nat 0) xO p) with p.
    apply binary_round_aux_canonical; lia.
  - rewrite Pos2Nat.inj_iter.
    replace (Z.to_nat (53 - Zpos (digits2_pos p))) with (Pos.to_nat q) by lia.
    apply binary_round_aux_canonical; [rewrite digits_iter_xO|]; lia.
Qed.

(** The same integer with 52 more zero bits and the exponent 52 lower is the
    same Number. *)
Lemma binary_round_shifted (p : positive) :
  Zpos p < 2 ^ 53 ->
  binary_round prec emax false (Nat.iter 52 xO p) (-52)
  = binary_normalize prec emax (Zpos p) 0 false.
Proof.
  intros Hp. pose proof (digits_below_2_53 p Hp) as Hd.
  rewrite (binary_normalize_small p Hp).
  unfold binary_round, shl_align.
  assert (Hf : fexp prec emax (Zpos (digits2_pos (Nat.iter 52 xO p)) + -52)
               = Zpos (digits2_pos p) - 53).
  { rewrite digits_iter_xO. unfold fexp, SpecFloat.emin, prec, emax. lia. }
  rewrite Hf.
  destruct (Zpos (digits2_pos p) - 53 - -52) as [|q|q] eqn:Hq; try lia.
  - rewrite (binary_round_aux_shifted false p 52 0) by lia.
    f_equal; [f_equal|]; lia.
  - rewrite (binary_round_aux_shifted false p 52 (Pos.to_nat q)) by lia.
    f_equal; [f_equal|]; lia.
Qed.

Lemma of_Z_small (t : Z) :
  0 < t < 2 ^ 53 ->
  Prim2SF (JS.of_Z t) = binary_normalize prec emax t 0 false.
Proof.
  intros Ht. destruct t as [|p|p]; try lia.
  unfold JS.of_Z. cbn [Z.ltb Z.compare].
  rewrite FloatAxioms.of_uint63_spec, Uint63.of_Z_spec.
  now rewrite Z.mod_small by (unfold wB; cbn; lia).
Qed.

(** On Numbers, adding one to an integer below [2^53 - 1] is exact. *)
Lemma add_one_exact (n : Z) :
  0 < n -> n + 1 < 2 ^ 53 -> (JS.of_Z n + 1)%float = JS.of_Z (n + 1).
Proof.
  intros Hn Hn1. apply Prim2SF_inj.
  rewrite FloatAxioms.add_spec, !of_Z_small by lia.
  destruct n as [|p|p]; try lia.
  rewrite (binary_normalize_small p) by lia.
  pose proof (digits_below_2_53 p ltac:(lia)) as Hd.
  assert (Hd1 : 1 <= Zpos (digits2_pos p)) by lia.
  change (Prim2SF 1) with (S754_finite false 4503599627370496 (-52)).
  unfold SF64add, SFadd.
  rewrite Z.min_r by lia.
  assert (Hx : Zpos (fst (shl_align
                            (Nat.iter (Z.to_nat (53 - Zpos (digits2_pos p))) xO p)
                            (Zpos (digits2_pos p) - 53) (-52)))
               = Zpos p * 2 ^ 52).
  { unfold shl_align.
    destruct (-52 - (Zpos (digits2_pos p) - 53)) as [|q|q] eqn:Hq; cbn [fst]; try lia.
    - rewrite Zpos_iter_xO. f_equal. f_equal. lia.
    - rewrite Zpos_Pos_iter_xO, Zpos_iter_xO, <- Z.mul_assoc, <- Z.pow_add_r by lia.
      f_equal. f_equal. lia. }
  rewrite Hx.
  change (fst (shl_align 4503599627370496 (-52) (-52))) with 4503599627370496%positive.
  cbn [cond_Zopp].
  replace (Zpos p * 2 ^ 52 + 4503599627370496)
    with (Zpos (Nat.iter 52 xO (p + 1)%positive))
    by (rewrite Zpos_iter_xO; change (2 ^ Z.of_nat 52) with 4503599627370496; lia).
  cbn [binary_normalize].
  now rewrite binary_round_shifted by lia.
Qed.

(** [JS.succ] is what [n + 1] computes on binary64 Numbers. *)
Lemma succ_is_binary64_increment (n : Z) :
  0 <= n <= JS.MAX_EXACT -> (JS.of_Z n + 1)%float = JS.of_Z (JS.succ n).
Proof.
  intros Hn. unfold JS.succ, JS.MAX_EXACT in *.
  destruct (Z.ltb_spec n 9007199254740992) as [Hlt|Hge].
  - destruct (Z.eq_dec n 0) as [->|H0]; [reflexivity|].
    destruct (Z.eq_dec n 9007199254740991) as [->|Hmax]; [reflexivity|].
    apply add_one_exact; lia.
  - replace n with 9007199254740992 by lia. reflexivity.
Qed.

Lemma incremented_value (n : nat) :
  incremented n = JS.of_Z (Z.min (Z.of_nat n) JS.MAX_EXACT).
Proof.
  pose proof MAX_EXACT_nonneg as Hm.
  induction n as [|n IH]; [reflexivity|].
  change (incremented (S n)) with (incremented n + 1)%float.
  rewrite IH, succ_is_binary64_increment by lia.
  rewrite succ_min by lia. f_equal. lia.
Qed.

(** X12. The integer counters of the embedding are the Numbers the code
    computes: after any history, [requestCount] (and [errorCount]) is the
    binary64 Number obtained from [0] by one [++] per call of
    [incrementRequestCount] (of [incrementErrorCount]), which is the number
    of calls up to [2^53] and [2^53] from then on. *)
Theorem counters_are_the_incremented_Numbers (rt0 : Node.Runtime) (h : History) :
  JS.of_Z (requestCount (run h (init rt0)))
  = incremented (Z.to_nat (calls is_incrementRequestCount h))
  /\ JS.of_Z (errorCount (run h (init rt0)))
     = incremented (Z.to_nat (calls is_incrementErrorCount h))
  /\ forall n : nat, incremented n = JS.of_Z (Z.min (Z.of_nat n) JS.MAX_EXACT).
Proof.
  pose proof (calls_nonneg is_incrementRequestCount h).
  pose proof (calls_nonneg is_incrementErrorCount h).
  rewrite requestCount_init, errorCount_init, !incremented_value, !Z2Nat.id by lia.
  repeat split. apply incremented_value.
Qed.

(** *** Two error rates *)

(** A counter that has counted is a positive finite Number. *)
Lemma of_Z_counter (t : Z) :
  0 < t <= JS.MAX_EXACT ->
  exists (m : positive) (e : Z), Prim2SF (JS.of_Z t) = S754_finite false m e.
Proof.
  intros Ht. destruct (Z.eq_dec t JS.MAX_EXACT) as [->|Hne].
  - do 2 eexists. vm_compute. reflexivity.
  - destruct t as [|p|p]; try lia.
    rewrite of_Z_small, binary_normalize_small by (unfold JS.MAX_EXACT in *; lia).
    eauto.
Qed.

Lemma toFixed_no_errors (t : Z) :
  0 < t <= JS.MAX_EXACT ->
  JS.toFixed NumberToString (JS.of_Z 0 / JS.of_Z t * 100)%float 2 = "0.00".
Proof.
  intros Ht. destruct (of_Z_counter t Ht) as (m & e & Hx).
  unfold JS.toFixed.
  rewrite FloatAxioms.mul_spec, FloatAxioms.div_spec, Hx.
  reflexivity.
Qed.

(** A positive finite Number divided by itself is 1. *)
Lemma div_self (x : float) (m : positive) (e : Z) :
  Prim2SF x = S754_finite false m e -> (x / x)%float = 1%float.
Proof.
  intros Hx. apply Prim2SF_inj. rewrite FloatAxioms.div_spec, Hx.
  unfold SF64div, SFdiv, SFdiv_core_binary.
  replace (Zdigits2 (Z.pos m) + e - (Zdigits2 (Z.pos m) + e)) with 0 by lia.
  rewrite Z.sub_diag.
  change (Z.min (fexp prec emax 0) 0) with (-53).
  change (0 - -53) with 53.
  cbv beta iota zeta.
  assert (Hdiv : Z.div_eucl (Z.shiftl (Z.pos m) 53) (Z.pos m) = (2 ^ 53, 0)).
  { rewrite Z.shiftl_mul_pow2 by lia.
    rewrite Z.mul_comm.
    transitivity ((2 ^ 53 * Z.pos m) / Z.pos m, (2 ^ 53 * Z.pos m) mod Z.pos m).
    - unfold Z.div, Z.modulo.
      now destruct (Z.div_eucl (2 ^ 53 * Z.pos m) (Z.pos m)).
    - now rewrite Z.div_mul, Z.mod_mul by lia. }
  rewrite Hdiv. unfold new_location.
  destruct (Z.even (Z.pos m)); vm_compute; reflexivity.
Qed.

Lemma toFixed_all_failed (t : Z) :
  0 < t <= JS.MAX_EXACT ->
  JS.toFixed NumberToString (JS.of_Z t / JS.of_Z t * 100)%float 2 = "100.00".
Proof.
  intros Ht. destruct (of_Z_counter t Ht) as (m & e & Hx).
  rewrite (div_self _ m e Hx). reflexivity.
Qed.

(** X13. When requests were counted and no error was, the rate is the
    string ["0.00%"], not the ["0%"] of a module that has counted no
    request. *)
Theorem errorRate_without_errors (rt0 rt : Node.Runtime) (h : History) :
  0 < calls is_incrementRequestCount h ->
  calls is_incrementErrorCount h = 0 ->
  exists r : Health,
    getSystemHealth rt (run h (init rt0)) = (Normal r, run h (init rt0))
    /\ Requests.errorRate (requests r) = "0.00%".
Proof.
  intros Hreq Herr. pose proof MAX_EXACT_nonneg as Hm.
  assert (Hmax : 0 < JS.MAX_EXACT) by (unfold JS.MAX_EXACT; lia).
  destruct (getSystemHealth_reads rt (run h (init rt0))) as (r & Hr & _ & _ & _ & Hrate).
  exists r. split; [exact Hr|].
  rewrite Hrate, requestCount_init, errorCount_init, Herr.
  rewrite (Z.min_l 0) by lia.
  destruct (Z.ltb_spec 0 (Z.min (calls is_incrementRequestCount h) JS.MAX_EXACT));
    [|lia].
  now rewrite toFixed_no_errors by lia.
Qed.

(** X14. When every counted request was also counted as an error, the rate
    is the string ["100.00%"]. *)
Theorem errorRate_all_failed (rt0 rt : Node.Runtime) (h : History) :
  0 < calls is_incrementRequestCount h ->
  calls is_incrementErrorCount h = calls is_incrementRequestCount h ->
  exists r : Health,
    getSystemHealth rt (run h (init rt0)) = (Normal r, run h (init rt0))
    /\ Requests.errorRate (requests r) = "100.00%".
Proof.
  intros Hreq Herr. pose proof MAX_EXACT_nonneg as Hm.
  assert (Hmax : 0 < JS.MAX_EXACT) by (unfold JS.MAX_EXACT; lia).
  destruct (getSystemHealth_reads rt (run h (init rt0))) as (r & Hr & _ & _ & _ & Hrate).
  exists r. split; [exact Hr|].
  rewrite Hrate, requestCount_init, errorCount_init, Herr.
  destruct (Z.ltb_spec 0 (Z.min (calls is_incrementRequestCount h) JS.MAX_EXACT));
    [|lia].
  now rewrite toFixed_all_failed by lia.
Qed.

(** *** Finite Numbers *)

Lemma Number_isFinite_spec (x : float) :
  JS.Number_isFinite x = JS.SF_finite (Prim2SF x).
Proof.
  unfold JS.Number_isFinite, is_finite, is_nan, is_infinity.
  rewrite !FloatAxioms.eqb_spec, FloatAxioms.abs_spec.
  change (Prim2SF infinity) with (S754_infinity false).
  destruct (Prim2SF x) as [s|s| |s m e].
  - destruct s; reflexivity.
  - destruct s; reflexivity.
  - reflexivity.
  - unfold SFeqb, SFcompare, SFabs.
    rewrite Z.compare_refl, Pos.compare_cont_refl. destruct s; reflexivity.
Qed.

Lemma shr_1_half (mrs : shr_record) :
  0 <= shr_m mrs -> shr_m (shr_1 mrs) = shr_m mrs / 2.
Proof.
  destruct mrs as [m r s]. cbn [shr_m]. intros Hm.
  destruct m as [|[p|p|]|p]; cbn [shr_1 shr_m]; try reflexivity; try lia.
  - change (Zpos p~1) with (2 * Zpos p + 1).
    apply Z.div_unique with 1; lia.
  - change (Zpos p~0) with (2 * Zpos p).
    apply Z.div_unique with 0; lia.
Qed.

Lemma shr_iter_bound (n : nat) (mrs : shr_record) (k : Z) :
  0 <= shr_m mrs < 2 ^ (k + Z.of_nat n) -> 0 <= k ->
  0 <= shr_m (Nat.iter n shr_1 mrs) < 2 ^ k.
Proof.
  revert k. induction n as [|n IH]; intros k Hm Hk.
  - cbn. now rewrite Z.add_0_r in Hm.
  - change (Nat.iter (S n) shr_1 mrs) with (shr_1 (Nat.iter n shr_1 mrs)).
    assert (Hn : 0 <= shr_m (Nat.iter n shr_1 mrs) < 2 ^ (k + 1)).
    { apply IH; [|lia]. replace (k + 1 + Z.of_nat n) with (k + Z.of_nat (S n)) by lia.
      exact Hm. }
    rewrite shr_1_half by lia.
    rewrite Z.pow_add_r, Z.pow_1_r in Hn by lia.
    split; [apply Z.div_pos; lia|].
    apply Z.div_lt_upper_bound; lia.
Qed.

Lemma Zdigits2_bound (m k : Z) : 0 <= m < 2 ^ k -> 0 <= k -> Zdigits2 m <= k.
Proof.
  intros Hm Hk. destruct m as [|p|p]; cbn [Zdigits2]; try lia.
  rewrite digits2_pos_size.
  pose proof (Pos.size_le p) as Hle.
  apply Pos2Z.pos_le_pos in Hle. rewrite Pos2Z.inj_pow in Hle.
  change (Zpos p~0) with (2 * Zpos p) in Hle.
  destruct (Z.le_gt_cases (Zpos (Pos.size p)) k) as [H|H]; [exact H|exfalso].
  assert (Hpow : 2 ^ (k + 1) <= 2 ^ Zpos (Pos.size p)) by (apply Z.pow_le_mono_r; lia).
  rewrite Z.pow_add_r, Z.pow_1_r in Hpow by lia. lia.
Qed.

Lemma shr_m_of_loc (m : Z) (l : location) : shr_m (shr_record_of_loc m l) = m.
Proof. destruct l as [|[]]; reflexivity. Qed.

Lemma round_nearest_even_bound (m : Z) (l : location) :
  m <= round_nearest_even m l <= m + 1.
Proof.
  destruct l as [|[]]; cbn [round_nearest_even]; try lia.
  destruct (Z.even m); lia.
Qed.

(** One alignment step: the exponent stays in range and the mantissa below
    the bound [2^(K - e)]. *)
Lemma shr_fexp_bound (m e : Z) (l : location) (K : Z) :
  0 <= m < 2 ^ (K - e) -> e <= 971 -> 0 <= K <= 1024 ->
  let '(mrs, e') := shr_fexp prec emax m e l in
  0 <= shr_m mrs < 2 ^ (K - e') /\ e' <= 971.
Proof.
  intros Hm He HK.
  assert (HKe : 0 <= K - e).
  { destruct (Z.le_gt_cases 0 (K - e)) as [H|H]; [exact H|].
    rewrite Z.pow_neg_r in Hm by lia. lia. }
  pose proof (Zdigits2_bound m (K - e) Hm HKe) as Hd.
  unfold shr_fexp, shr.
  destruct (fexp prec emax (Zdigits2 m + e) - e) as [|n|n] eqn:Hn.
  - rewrite shr_m_of_loc. auto.
  - assert (Hf : e + Zpos n <= 971 /\ e + Zpos n <= K).
    { unfold fexp, SpecFloat.emin, prec, emax in Hn. lia. }
    rewrite iter_pos_nat. split; [|lia].
    apply shr_iter_bound; [|lia].
    rewrite shr_m_of_loc, positive_nat_Z.
    replace (K - (e + Zpos n) + Zpos n) with (K - e) by lia. exact Hm.
  - rewrite shr_m_of_loc. auto.
Qed.

(** Rounding a non-negative mantissa that is below [2^1023] in value gives
    zero or a finite Number: it cannot overflow. *)
Lemma binary_round_aux_finite (s : bool) (q e : Z) (l : location) :
  0 <= q < 2 ^ (1023 - e) -> e <= 971 ->
  JS.SF_finite (binary_round_aux prec emax s q e l) = true.
Proof.
  intros Hq He. unfold binary_round_aux.
  pose proof (shr_fexp_bound q e l 1023 Hq He ltac:(lia)) as H1.
  destruct (shr_fexp prec emax q e l) as [mrs1 e1]. destruct H1 as [Hm1 He1].
  pose proof (round_nearest_even_bound (shr_m mrs1) (loc_of_shr_record mrs1)) as Hr.
  assert (H1023 : 0 <= 1023 - e1).
  { destruct (Z.le_gt_cases 0 (1023 - e1)) as [H|H]; [exact H|].
    rewrite Z.pow_neg_r in Hm1 by lia. lia. }
  assert (Hm2 : 0 <= round_nearest_even (shr_m mrs1) (loc_of_shr_record mrs1)
                < 2 ^ (1024 - e1)).
  { replace (1024 - e1) with (1023 - e1 + 1) by lia.
    rewrite Z.pow_add_r, Z.pow_1_r by lia. lia. }
  pose proof (shr_fexp_bound _ e1 loc_Exact 1024 Hm2 He1 ltac:(lia)) as H2.
  destruct (shr_fexp prec emax
              (round_nearest_even (shr_m mrs1) (loc_of_shr_record mrs1)) e1 loc_Exact)
    as [mrs2 e2].
  destruct H2 as [Hm3 He2].
  destruct (shr_m mrs2) as [|m|m]; [reflexivity| |lia].
  destruct (Z.leb_spec e2 (emax - prec)) as [_|Hbad]; [reflexivity|].
  unfold emax, prec in Hbad. lia.
Qed.

(** A valid finite Number has at most 53 mantissa bits and an exponent of at
    most 971. *)
Lemma finite_valid (x : float) (s : bool) (m : positive) (e : Z) :
  Prim2SF x = S754_finite s m e -> Zpos (digits2_pos m) <= 53 /\ e <= 971.
Proof.
  intros Hx. pose proof (Prim2SF_valid x) as Hv. rewrite Hx in Hv.
  unfold SpecFloat.valid_binary, bounded, canonical_mantissa in Hv.
  apply andb_prop in Hv. destruct Hv as [Hc Hb].
  apply Z.eqb_eq in Hc. apply Z.leb_le in Hb.
  unfold fexp, SpecFloat.emin, prec, emax in *. lia.
Qed.

Lemma Zpos_below_digits (m : positive) : Zpos m < 2 ^ Zpos (digits2_pos m).
Proof.
  rewrite digits2_pos_size. pose proof (Pos.size_gt m) as H.
  apply Pos2Z.pos_lt_pos in H. now rewrite Pos2Z.inj_pow in H.
Qed.

(** Dividing a finite Number by 1000 gives a finite Number, and a Number
    that is not finite stays so. *)
Lemma isFinite_div_1000 (x : float) :
  JS.Number_isFinite (x / 1000)%float = JS.Number_isFinite x.
Proof.
  rewrite !Number_isFinite_spec, FloatAxioms.div_spec.
  change (Prim2SF 1000) with (S754_finite false 8796093022208000 (-43)).
  destruct (Prim2SF x) as [s|s| |s m e] eqn:Hx; try reflexivity.
  destruct (finite_valid x s m e Hx) as [Hd He].
  pose proof (Zpos_below_digits m) as Hm.
  unfold SF64div, SFdiv, SFdiv_core_binary.
  change (Zdigits2 (Zpos 8796093022208000)) with 53.
  cbn [Zdigits2].
  set (e' := Z.min (fexp prec emax (Zpos (digits2_pos m) + e - (53 + -43))) (e - -43)).
  assert (He' : e' <= 961 /\ e' <= e + 43).
  { subst e'. unfold fexp, SpecFloat.emin, prec, emax. lia. }
  set (m' := match e - -43 - e' with
             | 0 => Zpos m
             | Zpos _ => Z.shiftl (Zpos m) (e - -43 - e')
             | Zneg _ => 0
             end).
  assert (Hm' : m' = Zpos m * 2 ^ (e + 43 - e')).
  { subst m'. destruct (e - -43 - e') as [|k|k] eqn:Hk; try lia.
    - replace (e + 43 - e') with 0 by lia. lia.
    - rewrite Z.shiftl_mul_pow2 by lia. f_equal. f_equal. lia. }
  assert (Hpos : 0 < 2 ^ (e + 43 - e')) by (apply Z.pow_pos_nonneg; lia).
  pose proof (Z_div_mod_eq_full m' 8796093022208000) as Hdm.
  pose proof (Z.mod_pos_bound m' 8796093022208000 ltac:(lia)) as Hmod.
  unfold Z.div, Z.modulo in Hdm, Hmod.
  destruct (Z.div_eucl m' 8796093022208000) as [q r].
  apply binary_round_aux_finite; [|lia].
  assert (Hq0 : 0 <= q) by nia.
  split; [exact Hq0|].
  assert (Hbound : m' < 2 ^ 52 * 2 ^ (1023 - e')).
  { rewrite Hm', <- Z.pow_add_r by lia.
    apply Z.lt_le_trans with (2 ^ Zpos (digits2_pos m) * 2 ^ (e + 43 - e')).
    - apply Z.mul_lt_mono_pos_r; assumption.
    - rewrite <- Z.pow_add_r by lia. apply Z.pow_le_mono_r; lia. }
  assert (Hp : 0 < 2 ^ (1023 - e')) by (apply Z.pow_pos_nonneg; lia).
  change (2 ^ 52) with 4503599627370496 in Hbound.
  nia.
Qed.

(** *** Durations *)

(** C3 (amended). For every [method], [route] and finite [duration],
    [recordRequestDuration(method, route, duration)] completes normally after
    one call to the registry: an observation of [duration / 1000], itself
    finite, in the histogram [http_request_duration_seconds] under the labels
    [method] and [route]; for a duration of 1500 the observation is 1.5. *)
Theorem recordRequestDuration_observes_seconds
        (method route : JS.Value) (duration : float) (s : Service) :
  JS.Number_isFinite duration = true ->
  recordRequestDuration method route duration s
  = (Normal tt,
     record_call
       (Observe httpRequestDuration [("method", method); ("route", route)]
                (duration / 1000)%float) s)
  /\ name httpRequestDuration = "http_request_duration_seconds"
  /\ recordRequestDuration method route 1500 s
     = (Normal tt,
        record_call
          (Observe httpRequestDuration [("method", method); ("route", route)]
                   1.5%float) s).
Proof.
  intros Hfinite. repeat split.
  unfold recordRequestDuration, observe.
  now rewrite isFinite_div_1000, Hfinite.
Qed.

(** For NaN and the two infinities the call to [observe] is made with a value
    that is not finite, and its TypeError is not caught. *)
Lemma recordRequestDuration_rejects_non_finite
      (method route : JS.Value) (duration : float) (s : Service) :
  JS.Number_isFinite duration = false ->
  recordRequestDuration method route duration s
  = (Throw (JS.VError "TypeError"),
     record_call
       (Observe httpRequestDuration [("method", method); ("route", route)]
                (duration / 1000)%float) s).
Proof.
  intros Hfinite. unfold recordRequestDuration, observe.
  now rewrite isFinite_div_1000, Hfinite.
Qed.

End HealthService.

(** ** The service on concrete inputs *)

(** Counting on binary64 Numbers stops at [2^53], as [JS.succ] says. *)
Example succ_agrees_with_binary64 :
  (JS.of_Z 41 + 1 = JS.of_Z (JS.succ 41))%float
  /\ (JS.of_Z (JS.MAX_EXACT - 1) + 1 = JS.of_Z (JS.succ (JS.MAX_EXACT - 1)))%float
  /\ (JS.of_Z JS.MAX_EXACT + 1 = JS.of_Z (JS.succ JS.MAX_EXACT))%float
  /\ JS.succ JS.MAX_EXACT = JS.MAX_EXACT.
Proof. vm_compute. repeat split. Qed.

Example Math_round_cases :
  JS.Math_round 2.5 = 3%float
  /\ JS.Math_round (-2.5) = (-2)%float
  /\ JS.Math_round 0.49999999999999994 = 0%float
  /\ JS.Math_floor 12.5 = 12%float
  /\ JS.Math_floor (-0.5) = (-1)%float.
Proof. vm_compute. repeat split. Qed.

Example toFixed_cases :
  JS.toFixed JS.integral_toString (1 / 3 * 100) 2 = "33.33"
  /\ JS.toFixed JS.integral_toString 0.125 2 = "0.13"
  /\ JS.toFixed JS.integral_toString 1.005 2 = "1.00"
  /\ JS.toFixed JS.integral_toString 0 2 = "0.00"
  /\ JS.toFixed JS.integral_toString 100 2 = "100.00"
  /\ JS.toFixed JS.integral_toString (-0.001) 2 = "-0.00".
Proof. vm_compute. repeat split. Qed.

(** Three requests and one error: a third of the requests failed. *)
Example sample_history_health :
  exists r : Health,
    fst (getSystemHealth JS.integral_toString
           (sample_runtime (Some "8080") true 52428800 104857600)
           (run JS.integral_toString registered_names sample_history (init boot_runtime)))
    = Normal r
    /\ status r = "healthy"
    /\ uptime r = "12s"
    /\ Memory.used (memory r) = "50MB"
    /\ requests r
       = {| Requests.total := 3; Requests.errors := 1; Requests.errorRate := "33.33%" |}.
Proof. eexists. vm_compute. repeat split. Qed.

(** Before any request the rate is ["0%"]. *)
Example fresh_module_health :
  exists r : Health,
    fst (getSystemHealth JS.integral_toString
           (sample_runtime None true 52428800 104857600) (init boot_runtime))
    = Normal r
    /\ requests r
       = {| Requests.total := 0; Requests.errors := 0; Requests.errorRate := "0%" |}.
Proof. eexists. vm_compute. repeat split. Qed.

(** The rate is the two-decimal rounding of the binary64 product: one error
    in 800 requests prints as 0.13, and 201 in 20000, where the product is the
    Number next below 1.005, as 1.00. *)
Example errorRate_cases :
  forall rt : Node.Runtime,
    (exists r, fst (getSystemHealth JS.integral_toString rt (counted 1 8)) = Normal r
               /\ Requests.errorRate (requests r) = "12.50%")
    /\ (exists r, fst (getSystemHealth JS.integral_toString rt (counted 1 800)) = Normal r
                  /\ Requests.errorRate (requests r) = "0.13%")
    /\ (exists r, fst (getSystemHealth JS.integral_toString rt (counted 201 20000)) = Normal r
                  /\ Requests.errorRate (requests r) = "1.00%")
    /\ (exists r, fst (getSystemHealth JS.integral_toString rt (counted 2 1)) = Normal r
                  /\ Requests.errorRate (requests r) = "200.00%")
    /\ (exists r, fst (getSystemHealth JS.integral_toString rt (counted 3 0)) = Normal r
                  /\ Requests.errorRate (requests r) = "0%").
Proof.
  intros rt. repeat split; eexists; (split; [reflexivity|]); vm_compute; reflexivity.
Qed.

(** The threshold on byte counts: exactly nine tenths is a warning, one byte
    less is healthy. *)
Example memory_threshold_cases :
  forall (rt : Node.Runtime) (s : Service),
    (Node.heapUsed (Node.process_memoryUsage rt) = 94371840%float ->
     Node.heapTotal (Node.process_memoryUsage rt) = 104857600%float ->
     exists fs_entry m, fst (checkDependencies JS.integral_toString rt s)
                        = Normal [fs_entry; m]
                        /\ Dependency.status m = "warning")
    /\ (Node.heapUsed (Node.process_memoryUsage rt) = 94371839%float ->
        Node.heapTotal (Node.process_memoryUsage rt) = 104857600%float ->
        exists fs_entry m, fst (checkDependencies JS.integral_toString rt s)
                           = Normal [fs_entry; m]
                           /\ Dependency.status m = "healthy").
Proof.
  intros rt s. split; intros Hu Ht;
    pose proof (checkDependencies_returns JS.integral_toString rt s) as Hc;
    cbv zeta in Hc; rewrite Hc, Hu, Ht; do 2 eexists; (split; [reflexivity|]);
    vm_compute; reflexivity.
Qed.

Example checkDependencies_logs_writable :
  fst (checkDependencies JS.integral_toString
         (sample_runtime None true 52428800 104857600) (init boot_runtime))
  = Normal
      [ {| Dependency.name := "filesystem"; Dependency.status := "healthy";
           Dependency.error := None; Dependency.usage := None |};
        {| Dependency.name := "memory"; Dependency.status := "healthy";
           Dependency.error := None; Dependency.usage := Some "50%" |} ].
Proof. vm_compute. reflexivity. Qed.

Example checkDependencies_logs_read_only :
  fst (checkDependencies JS.integral_toString
         (sample_runtime None false 94371840 104857600) (init boot_runtime))
  = Normal
      [ {| Dependency.name := "filesystem"; Dependency.status := "unhealthy";
           Dependency.error := Some "Cannot write to logs directory";
           Dependency.usage := None |};
        {| Dependency.name := "memory"; Dependency.status := "warning";
           Dependency.error := None; Dependency.usage := Some "90%" |} ].
Proof. vm_compute. reflexivity. Qed.

Example getPrometheusMetrics_sample :
  fst (getPrometheusMetrics registered_names
         (sample_runtime None true 52428800 104857600) (init boot_runtime))
  = Normal (String.concat (String "010" "")
              [ "http_requests_total"; "http_request_duration_seconds";
                "active_connections"; "memory_usage_bytes"; "cpu_usage_percent" ]).
Proof. vm_compute. reflexivity. Qed.

Example port_cases :
  (exists d, fst (getDetailedMetrics JS.integral_toString
                    (sample_runtime (Some "8080") true 1 2) (init boot_runtime)) = Normal d
             /\ Environment.port (environment d) = JS.VString "8080")
  /\ (exists d, fst (getDetailedMetrics JS.integral_toString
                       (sample_runtime None true 1 2) (init boot_runtime)) = Normal d
                /\ Environment.port (environment d) = JS.VNumber 5001).
Proof. split; eexists; vm_compute; split; reflexivity. Qed.

(** ** Witnesses and counterexamples *)

(** The sample history has three calls of [incrementRequestCount], and the
    snapshot taken after it reports three. *)
Lemma requests_total_counts_calls_witness :
  calls is_incrementRequestCount sample_history <= JS.MAX_EXACT
  /\ exists r : Health,
       getSystemHealth JS.integral_toString
         (sample_runtime None true 52428800 104857600)
         (run JS.integral_toString registered_names sample_history (init boot_runtime))
       = (Normal r,
          run JS.integral_toString registered_names sample_history (init boot_runtime))
       /\ Requests.total (requests r) = calls is_incrementRequestCount sample_history.
Proof.
  split.
  - vm_compute. discriminate.
  - apply (requests_total_counts_calls JS.integral_toString registered_names
             boot_runtime (sample_runtime None true 52428800 104857600) sample_history).
    vm_compute. discriminate.
Defined.

(** C1 as stated fails: after [2^53 + 1] calls of [incrementRequestCount]
    the counter, a binary64 Number, has stopped at [2^53], and that is what
    [requests.total] reports. *)
Lemma requests_total_stops_at_2_53 :
  calls is_incrementRequestCount flood = JS.MAX_EXACT + 1
  /\ exists r : Health,
       getSystemHealth JS.integral_toString
         (sample_runtime None true 52428800 104857600)
         (run JS.integral_toString registered_names flood (init boot_runtime))
       = (Normal r, run JS.integral_toString registered_names flood (init boot_runtime))
       /\ Requests.total (requests r) = JS.MAX_EXACT
       /\ Requests.total (requests r) <> calls is_incrementRequestCount flood.
Proof.
  assert (Hcalls : calls is_incrementRequestCount flood = JS.MAX_EXACT + 1).
  { unfold flood. rewrite calls_repeat.
    change (Z.of_nat (Z.to_nat (JS.MAX_EXACT + 1)) = JS.MAX_EXACT + 1).
    apply Z2Nat.id. pose proof MAX_EXACT_nonneg. lia. }
  split; [exact Hcalls|].
  destruct (getSystemHealth_reads JS.integral_toString
              (sample_runtime None true 52428800 104857600)
              (run JS.integral_toString registered_names flood (init boot_runtime)))
    as (r & Hr & _ & Ht & _).
  exists r. split; [exact Hr|].
  rewrite Ht, requestCount_init, Hcalls.
  pose proof MAX_EXACT_nonneg. split; lia.
Qed.

(** C7 as stated fails: with [PORT] set to the empty string, the port reported
    is the number 5001 and not the configured value. *)
Lemma port_set_to_empty_string_is_replaced :
  let rt := sample_runtime (Some "") true 52428800 104857600 in
  Node.process_env rt "PORT" = Some ""
  /\ exists d : Detailed,
       getDetailedMetrics JS.integral_toString rt (init boot_runtime)
       = (Normal d, init boot_runtime)
       /\ Environment.port (environment d) = JS.VNumber 5001
       /\ Environment.port (environment d) <> JS.VString "".
Proof.
  intros rt. split; [reflexivity|].
  eexists. split; [reflexivity|].
  split; [reflexivity|]. cbn. discriminate.
Qed.

(** The sample history has one call of [incrementErrorCount]. *)
Lemma requests_errors_counts_calls_witness :
  calls is_incrementErrorCount sample_history <= JS.MAX_EXACT
  /\ exists r : Health,
       getSystemHealth JS.integral_toString
         (sample_runtime None true 52428800 104857600)
         (run JS.integral_toString registered_names sample_history (init boot_runtime))
       = (Normal r,
          run JS.integral_toString registered_names sample_history (init boot_runtime))
       /\ Requests.errors (requests r) = calls is_incrementErrorCount sample_history.
Proof.
  split.
  - vm_compute. discriminate.
  - apply (requests_errors_counts_calls JS.integral_toString registered_names
             boot_runtime (sample_runtime None true 52428800 104857600) sample_history).
    vm_compute. discriminate.
Defined.

(** Two requests and no error. *)
Lemma errorRate_without_errors_witness :
  0 < calls is_incrementRequestCount clean_history
  /\ calls is_incrementErrorCount clean_history = 0
  /\ exists r : Health,
       getSystemHealth JS.integral_toString
         (sample_runtime None true 52428800 104857600)
         (run JS.integral_toString registered_names clean_history (init boot_runtime))
       = (Normal r,
          run JS.integral_toString registered_names clean_history (init boot_runtime))
       /\ Requests.errorRate (requests r) = "0.00%".
Proof.
  split; [reflexivity|]. split; [reflexivity|].
  apply (errorRate_without_errors JS.integral_toString registered_names
           boot_runtime (sample_runtime None true 52428800 104857600) clean_history);
    reflexivity.
Defined.

(** Two requests, both errors. *)
Lemma errorRate_all_failed_witness :
  0 < calls is_incrementRequestCount failed_history
  /\ calls is_incrementErrorCount failed_history
     = calls is_incrementRequestCount failed_history
  /\ exists r : Health,
       getSystemHealth JS.integral_toString
         (sample_runtime None true 52428800 104857600)
         (run JS.integral_toString registered_names failed_history (init boot_runtime))
       = (Normal r,
          run JS.integral_toString registered_names failed_history (init boot_runtime))
       /\ Requests.errorRate (requests r) = "100.00%".
Proof.
  split; [reflexivity|]. split; [reflexivity|].
  apply (errorRate_all_failed JS.integral_toString registered_names
           boot_runtime (sample_runtime None true 52428800 104857600) failed_history);
    reflexivity.
Defined.

(** A duration of a second and a half. *)
Lemma recordRequestDuration_observes_seconds_witness :
  JS.Number_isFinite 1500 = true
  /\ (recordRequestDuration GET api_users 1500 (init boot_runtime)
      = (Normal tt,
         record_call
           (Observe httpRequestDuration [("method", GET); ("route", api_users)]
                    (1500 / 1000)%float) (init boot_runtime))
      /\ name httpRequestDuration = "http_request_duration_seconds"
      /\ recordRequestDuration GET api_users 1500 (init boot_runtime)
         = (Normal tt,
            record_call
              (Observe httpRequestDuration [("method", GET); ("route", api_users)]
                       1.5%float) (init boot_runtime))).
Proof.
  split; [reflexivity|].
  apply (recordRequestDuration_observes_seconds GET api_users 1500 (init boot_runtime)).
  reflexivity.
Defined.

(** C3 as stated fails: with a duration of NaN, and likewise of Infinity, the
    quotient handed to [observe] is not a finite Number, prom-client throws a
    TypeError and the call does not complete normally. *)
Lemma recordRequestDuration_throws_on_NaN :
  fst (recordRequestDuration GET api_users nan (init boot_runtime))
  = Throw (JS.VError "TypeError")
  /\ fst (recordRequestDuration GET api_users infinity (init boot_runtime))
     = Throw (JS.VError "TypeError")
  /\ fst (recordRequestDuration GET api_users nan (init boot_runtime)) <> Normal tt.
Proof.
  split; [reflexivity|]. split; [reflexivity|].
  cbv. discriminate.
Qed.
